(** * Open-Meteo weather dashboard ([week10-2.py])

    A shallow embedding of the dashboard script: the two cached HTTP
    clients ([geocode], [fetch_forecast]), the search pipeline that the
    script runs from top to bottom on every interaction, and the four
    rendering steps that follow a successful forecast fetch.

    Python values are an inductive type, exceptions are an error result,
    and the mutable world of the script (the clock, the requests sent, the
    two [st.cache_data] stores, what was drawn on the page) is threaded
    through a state-and-exception monad.  What the remote services
    answer, and what pandas, matplotlib and streamlit make of the data
    they are handed, is taken from an environment. *)

From Stdlib Require Import ZArith String Ascii List Bool Lia.
From Stdlib Require Import Floats.SpecFloat.
From stdpp Require Import base option list strings pretty.

Set Warnings "-register-all".

Local Open Scope string_scope.
Local Open Scope Z_scope.

(** ** Python values *)

Module Py.

(** A Python [float] is an IEEE-754 binary64 number. *)
Definition float := spec_float.

Definition prec : Z := 53.
Definition emax : Z := 1024.

(** What [json.loads] can produce, which is also all the script handles:
    [None], [bool], [int], [float], [str], [list] and [dict] with string
    keys.  A [dict] keeps insertion order, so it is a list of items; the
    keys of a dict are pairwise distinct. *)
Inductive value :=
  | VNone
  | VBool (b : bool)
  | VInt (n : Z)
  | VFloat (x : float)
  | VStr (s : string)
  | VList (xs : list value)
  | VDict (items : list (string * value)).

(** The exceptions of the script.  [RequestException] and [LibraryError]
    stand for the exceptions of [requests] and of the drawing libraries
    that have no constructor of their own, by class name. *)
Inductive exn :=
  | ConnectionError
  | Timeout
  | RequestException (name : string)
  | HTTPError (status : Z)
  | JSONDecodeError
  | AttributeError
  | KeyError (key : string)
  | TypeError
  | ValueError
  | OverflowError
  | IndexError
  | StreamlitAPIException
  | LibraryError (name : string).

Inductive result (A : Type) :=
  | Ok (a : A)
  | Raise (e : exn).
Arguments Ok {A} a.
Arguments Raise {A} e.

#[global] Instance result_ret : MRet result := λ A a, Ok a.

#[global] Instance result_bind : MBind result := λ A B f r,
  match r with
  | Ok a => f a
  | Raise e => Raise e
  end.

(** Run [f] over a list from left to right, stopping at the first raise. *)
Fixpoint map_result {A B} (f : A → result B) (xs : list A) : result (list B) :=
  match xs with
  | [] => Ok []
  | x :: rest =>
      match f x with
      | Ok y =>
          match map_result f rest with
          | Ok ys => Ok (y :: ys)
          | Raise e => Raise e
          end
      | Raise e => Raise e
      end
  end.

Definition is_zero (x : float) : bool :=
  match x with S754_zero _ => true | _ => false end.

(** [bool(v)] *)
Definition truthy (v : value) : bool :=
  match v with
  | VNone => false
  | VBool b => b
  | VInt n => negb (n =? 0)
  | VFloat x => negb (is_zero x)
  | VStr s => negb (String.eqb s EmptyString)
  | VList xs => match xs with [] => false | _ => true end
  | VDict items => match items with [] => false | _ => true end
  end.

(** [a or b] *)
Definition py_or (a b : value) : value := if truthy a then a else b.

Fixpoint lookup_item (k : string) (items : list (string * value)) : option value :=
  match items with
  | [] => None
  | (k', v) :: rest => if String.eqb k k' then Some v else lookup_item k rest
  end.

Definition keys (items : list (string * value)) : list string := map fst items.

(** [v.get(k, dflt)]: only a dict has the method. *)
Definition get (v : value) (k : string) (dflt : value) : result value :=
  match v with
  | VDict items => Ok (default dflt (lookup_item k items))
  | _ => Raise AttributeError
  end.

(** [v[k]] on a dict. *)
Definition getitem (v : value) (k : string) : result value :=
  match v with
  | VDict items =>
      match lookup_item k items with
      | Some x => Ok x
      | None => Raise (KeyError k)
      end
  | _ => Raise TypeError
  end.

(** [sep.join(xs)] for a list of [str]. *)
Definition join (sep : string) (xs : list string) : string := String.concat sep xs.

(** [str.isspace] on one character.  A character of a [string] stands for
    the code point of the same number, so the strings of the model are the
    Python strings over code points below 256. *)
Definition isspace (c : ascii) : bool :=
  let n := Z.of_nat (nat_of_ascii c) in
  ((9 <=? n) && (n <=? 13)) || ((28 <=? n) && (n <=? 32))
  || (n =? 133) || (n =? 160).

Fixpoint lstrip (s : string) : string :=
  match s with
  | EmptyString => EmptyString
  | String c rest => if isspace c then lstrip rest else s
  end.

Fixpoint rev_string (s acc : string) : string :=
  match s with
  | EmptyString => acc
  | String c rest => rev_string rest (String c acc)
  end.

Definition rstrip (s : string) : string :=
  rev_string (lstrip (rev_string s EmptyString)) EmptyString.

(** [s.strip()] *)
Definition strip (s : string) : string := rstrip (lstrip s).

(** [float(n)] for an [int]: round to nearest, [OverflowError] beyond the
    largest double. *)
Definition float_of_int (n : Z) : result float :=
  match binary_normalize prec emax n 0 false with
  | S754_infinity _ => Raise OverflowError
  | x => Ok x
  end.

(** [float(v)] needs the parser of [float(str)], which is a parameter. *)
Definition py_float (float_of_str : string → option float) (v : value) : result float :=
  match v with
  | VFloat x => Ok x
  | VInt n => float_of_int n
  | VBool b => float_of_int (if b then 1 else 0)
  | VStr s =>
      match float_of_str s with
      | Some x => Ok x
      | None => Raise ValueError
      end
  | _ => Raise TypeError
  end.

(** [list.index(x)]: the first position holding [x]. *)
Fixpoint index (x : string) (xs : list string) : result nat :=
  match xs with
  | [] => Raise ValueError
  | y :: rest =>
      if String.eqb x y then Ok 0%nat
      else match index x rest with
           | Ok i => Ok (S i)
           | Raise e => Raise e
           end
  end.

(** Structural equality, as [st.cache_data] compares argument values. *)
Definition float_same (x y : float) : bool :=
  match x, y with
  | S754_zero a, S754_zero b => Bool.eqb a b
  | S754_infinity a, S754_infinity b => Bool.eqb a b
  | S754_nan, S754_nan => true
  | S754_finite a m e, S754_finite b m' e' =>
      Bool.eqb a b && Pos.eqb m m' && Z.eqb e e'
  | _, _ => false
  end.

Fixpoint value_same (a b : value) {struct a} : bool :=
  match a, b with
  | VNone, VNone => true
  | VBool x, VBool y => Bool.eqb x y
  | VInt x, VInt y => Z.eqb x y
  | VFloat x, VFloat y => float_same x y
  | VStr x, VStr y => String.eqb x y
  | VList xs, VList ys =>
      (fix go (xs ys : list value) : bool :=
         match xs, ys with
         | [], [] => true
         | x :: xs', y :: ys' => value_same x y && go xs' ys'
         | _, _ => false
         end) xs ys
  | VDict xs, VDict ys =>
      (fix go (xs ys : list (string * value)) : bool :=
         match xs, ys with
         | [], [] => true
         | (k, x) :: xs', (k', y) :: ys' =>
             String.eqb k k' && value_same x y && go xs' ys'
         | _, _ => false
         end) xs ys
  | _, _ => false
  end.

End Py.
Export Py.

(** ** The world the script runs in *)

Record request := {
  req_url : string;
  req_params : list (string * value) }.

(** Why a request got no response: the connection failed, it timed out,
    or [requests] gave up for another reason, named by its exception. *)
Inductive failure :=
  | ConnectionFailed
  | TimedOut
  | OtherFailure (name : string).

(** The exception [requests.get] raises for a failure. *)
Definition failure_exn (f : failure) : exn :=
  match f with
  | ConnectionFailed => ConnectionError
  | TimedOut => Timeout
  | OtherFailure name => RequestException name
  end.

(** What one HTTP GET comes back with: nothing, or a status and a body,
    [None] when the body is not JSON. *)
Inductive response :=
  | NoResponse (why : failure)
  | Response (status : Z) (body : option value).

(** A pandas timestamp, as the integer a [datetime64] column stores for
    it: the ticks since the epoch, the smallest integer for [NaT]. *)
Definition timestamp := Z.

Inductive cell :=
  | CVal (v : value)
  | CTime (t : timestamp).

(** A frame is its columns in order, each a name and the cells top down. *)
Definition frame := list (string * list cell).

(** What the script takes from outside.

    - The remote services: the answer to the [n]-th request the process
      sends.
    - Python's number formatting and parsing.
    - pandas.  A column does not hold the values it was built from but
      what pandas makes of them when it settles the column's type (a
      missing value beside numbers or strings becomes NaN, integers beside
      floats become floats, and so on): [records_cells] are the cells of a
      column of [pd.DataFrame(rows)] for a list of records, [array_cells]
      those of a column of [pd.DataFrame(d)] for a dict of arrays, both
      one cell per value and in order.  [frame_of_other] is
      [pd.DataFrame(d)] for every [d] that is not a dict of arrays (its
      columns with a string name, or the exception).  [to_datetime] is
      [pd.to_datetime] on the cells of a column: one timestamp per cell,
      or the exception it raises.
    - The widgets that can refuse what they are given: drawing one chart
      ([ax.plot] to [st.pyplot], for a variable and its two columns),
      [st.dataframe] and [st.map] either go through or raise. *)
Class Env := {
  service : nat → request → response;
  py_str : value → string;
  py_fmt4f : float → string;
  float_of_str : string → option float;
  records_cells : list value → list value;
  records_cells_length : ∀ xs, length (records_cells xs) = length xs;
  array_cells : list value → list value;
  array_cells_length : ∀ xs, length (array_cells xs) = length xs;
  frame_of_other : value → result (list (string * list value));
  to_datetime : list value → result (list timestamp);
  to_datetime_length :
    ∀ xs ts, to_datetime xs = Ok ts → length ts = length xs;
  draw_error : string → list cell → list cell → option exn;
  dataframe_error : frame → option exn;
  map_error : float → float → option exn }.

(** *** pandas frames and matplotlib figures *)

Record figure := {
  fig_title : string;
  fig_xlabel : string;
  fig_ylabel : string;
  fig_grid : bool;
  fig_x : list cell;
  fig_y : list cell }.

(** *** What the page shows, in the order the script emits it *)

(** One constructor per Streamlit call of the script; [Col1 e] is [e]
    inside [with col1:].  [Called fn] is not drawn: it records that the
    cached function [fn] was invoked, whether or not its body ran. *)
Inductive event :=
  | Called (fn : string)
  | StSpinner (text : string)
  | StWarning (text : string)
  | StInfo (text : string)
  | StSubheader (text : string)
  | StMarkdown (text : string)
  | StWrite (text : string)
  | StRadio (label : string) (options : list string)
  | StMetric (label text : string)
  | StPyplot (fig : figure)
  | StDataframe (df : frame)
  | StMap (lat lon : float) (zoom : Z)
  | StExpander (label : string)
  | StJson (data : value)
  | Col1 (e : event).

(** *** [st.cache_data] stores *)

(** One store per decorated function: the newest entry of a key first,
    each with the value and the time it expires. *)
Definition cache (K : Type) := list (K * (value * Z)).

Fixpoint cache_find {K} (same : K → K → bool) (k : K) (c : cache K)
  : option (value * Z) :=
  match c with
  | [] => None
  | (k', e) :: rest => if same k k' then Some e else cache_find same k rest
  end.

(** Whether [k] has an entry in [c] that has not expired at time [t]. *)
Definition in_window {K} (same : K → K → bool) (k : K) (c : cache K) (t : Z)
  : bool :=
  match cache_find same k c with
  | Some (_, expires) => t <? expires
  | None => false
  end.

Record forecast_args := {
  fa_lat : float;
  fa_lon : float;
  fa_tz : value;
  fa_hourly : list string;
  fa_daily : list string;
  fa_days : Z }.

Definition strings_same (xs ys : list string) : bool :=
  bool_decide (xs = ys).

Definition geocode_key_same (a b : string * Z) : bool :=
  String.eqb (fst a) (fst b) && Z.eqb (snd a) (snd b).

Definition forecast_args_same (a b : forecast_args) : bool :=
  float_same (fa_lat a) (fa_lat b) && float_same (fa_lon a) (fa_lon b)
  && value_same (fa_tz a) (fa_tz b)
  && strings_same (fa_hourly a) (fa_hourly b)
  && strings_same (fa_daily a) (fa_daily b)
  && Z.eqb (fa_days a) (fa_days b).

Record world := {
  now : Z;
  sent : list request;
  geocode_cache : cache (string * Z);
  forecast_cache : cache forecast_args;
  trace : list event }.

Definition set_now (t : Z) (w : world) : world :=
  {| now := t; sent := sent w; geocode_cache := geocode_cache w;
     forecast_cache := forecast_cache w; trace := trace w |}.

Definition add_sent (r : request) (w : world) : world :=
  {| now := now w; sent := sent w ++ [r]; geocode_cache := geocode_cache w;
     forecast_cache := forecast_cache w; trace := trace w |}.

Definition set_geocode_cache (c : cache (string * Z)) (w : world) : world :=
  {| now := now w; sent := sent w; geocode_cache := c;
     forecast_cache := forecast_cache w; trace := trace w |}.

Definition set_forecast_cache (c : cache forecast_args) (w : world) : world :=
  {| now := now w; sent := sent w; geocode_cache := geocode_cache w;
     forecast_cache := c; trace := trace w |}.

Definition add_event (e : event) (w : world) : world :=
  {| now := now w; sent := sent w; geocode_cache := geocode_cache w;
     forecast_cache := forecast_cache w; trace := trace w ++ [e] |}.

(** The requests that were sent between the worlds [w] and [w']. *)
Definition new_requests (w w' : world) : list request :=
  drop (length (sent w)) (sent w').

(** The events that were emitted between the worlds [w] and [w']. *)
Definition new_events (w w' : world) : list event :=
  drop (length (trace w)) (trace w').

(** ** State and exceptions *)

Definition M (A : Type) : Type := world → result A * world.

#[global] Instance M_ret : MRet M := λ A a w, (Ok a, w).

#[global] Instance M_bind : MBind M := λ A B f m w,
  match m w with
  | (Ok a, w') => f a w'
  | (Raise e, w') => (Raise e, w')
  end.

Definition lift {A} (r : result A) : M A := λ w, (r, w).

Definition emit (e : event) : M unit := λ w, (Ok tt, add_event e w).

(** The world after emitting the events [es] one after the other. *)
Definition add_events (es : list event) (w : world) : world :=
  fold_left (λ w e, add_event e w) es w.

Fixpoint for_each {A} (body : A → M unit) (xs : list A) : M unit :=
  match xs with
  | [] => mret tt
  | x :: rest => body x ;; for_each body rest
  end.

(** A computation that only draws: whatever it returns, it leaves the
    clock, the requests sent and the two stores as they were. *)
Definition only_draws {A} (m : M A) : Prop :=
  ∀ w, now (snd (m w)) = now w
       ∧ sent (snd (m w)) = sent w
       ∧ geocode_cache (snd (m w)) = geocode_cache w
       ∧ forecast_cache (snd (m w)) = forecast_cache w.

(** A computation that only adds to the page: what was emitted before it
    stays, in place. *)
Definition appends {A} (m : M A) : Prop :=
  ∀ w, ∃ es, trace (snd (m w)) = (trace w ++ es)%list.

(** A computation whose requests, from any world, are a list that
    [allowed] accepts. *)
Definition sends {A} (allowed : list request → Prop) (m : M A) : Prop :=
  ∀ w, ∃ rs, sent (snd (m w)) = (sent w ++ rs)%list ∧ allowed rs.

(** ** The two cached clients *)

Section Clients.
Context `{Env}.

Definition GEOCODE_URL : string := "https://geocoding-api.open-meteo.com/v1/search".
Definition FORECAST_URL : string := "https://api.open-meteo.com/v1/forecast".

(** [requests.get(url, params=params, timeout=...)]: the request goes out
    and either a response comes back or the call raises the exception of
    the failure. *)
Definition requests_get (url : string) (params : list (string * value))
  : M (Z * option value) := λ w,
  let rq := {| req_url := url; req_params := params |} in
  match service (length (sent w)) rq with
  | NoResponse why => (Raise (failure_exn why), add_sent rq w)
  | Response status body => (Ok (status, body), add_sent rq w)
  end.

(** [r.raise_for_status()] *)
Definition raise_for_status (r : Z * option value) : result unit :=
  if (400 <=? fst r) && (fst r <? 600) then Raise (HTTPError (fst r)) else Ok tt.

(** [r.json()] *)
Definition json (r : Z * option value) : result value :=
  match snd r with
  | Some v => Ok v
  | None => Raise JSONDecodeError
  end.

(** [@st.cache_data(ttl=...)]: an invocation with a key whose entry has not
    expired returns the stored value and does not run the body; otherwise
    the body runs and, when it returns, its value is stored for [ttl]
    seconds.  A body that raises stores nothing. *)
Definition cache_data {K} (ttl : Z) (fn : string) (same : K → K → bool)
    (getc : world → cache K) (setc : cache K → world → world)
    (body : K → M value) (k : K) : M value := λ w0,
  let w := add_event (Called fn) w0 in
  let miss :=
    match body k w with
    | (Ok v, w') => (Ok v, setc ((k, (v, now w' + ttl)) :: getc w') w')
    | (Raise e, w') => (Raise e, w')
    end in
  match cache_find same k (getc w) with
  | Some (v, expires) => if now w <? expires then (Ok v, w) else miss
  | None => miss
  end.

Definition geocode_body (k : string * Z) : M value :=
  let params := [("name", VStr (fst k)); ("count", VInt (snd k))] in
  r ← requests_get GEOCODE_URL params;
  lift (raise_for_status r) ;;
  j ← lift (json r);
  lift (get j "results" (VList [])).

Definition geocode (query : string) (limit : Z) : M value :=
  cache_data (60 * 60) "geocode" geocode_key_same
    geocode_cache set_geocode_cache geocode_body (query, limit).

Definition is_not_none (v : value) : bool :=
  match v with VNone => false | _ => true end.

Definition joined_or_none (vars : list string) : value :=
  match vars with
  | [] => VNone
  | _ => VStr (join "," vars)
  end.

Definition forecast_params (a : forecast_args) : list (string * value) :=
  let params :=
    [ ("latitude", VFloat (fa_lat a));
      ("longitude", VFloat (fa_lon a));
      ("hourly", joined_or_none (fa_hourly a));
      ("daily", joined_or_none (fa_daily a));
      ("current_weather", VStr "true");
      ("forecast_days", VInt (fa_days a));
      ("timezone", fa_tz a) ] in
  List.filter (λ kv, is_not_none (snd kv)) params.

Definition fetch_forecast_body (a : forecast_args) : M value :=
  r ← requests_get FORECAST_URL (forecast_params a);
  lift (raise_for_status r) ;;
  lift (json r).

Definition fetch_forecast (lat lon : float) (timezone_str : value)
    (hourly_vars daily_vars : list string) (days : Z) : M value :=
  cache_data (60 * 10) "fetch_forecast" forecast_args_same
    forecast_cache set_forecast_cache fetch_forecast_body
    {| fa_lat := lat; fa_lon := lon; fa_tz := timezone_str;
       fa_hourly := hourly_vars; fa_daily := daily_vars; fa_days := days |}.

(** The request [geocode] sends for a query and a limit. *)
Definition geocode_request (query : string) (limit : Z) : request :=
  {| req_url := GEOCODE_URL;
     req_params := [("name", VStr query); ("count", VInt limit)] |}.

(** The request [fetch_forecast] sends for its arguments. *)
Definition forecast_request (a : forecast_args) : request :=
  {| req_url := FORECAST_URL; req_params := forecast_params a |}.




End Clients.

(** ** pandas, as far as the script uses it *)

Module Pandas.

(** An item of a dict of arrays, as a named column. *)
Definition as_column (item : string * value) : option (string * list value) :=
  match snd item with
  | VList xs => Some (fst item, xs)
  | _ => None
  end.

Fixpoint as_columns (items : list (string * value))
  : option (list (string * list value)) :=
  match items with
  | [] => Some []
  | item :: rest =>
      match as_column item, as_columns rest with
      | Some c, Some cs => Some (c :: cs)
      | _, _ => None
      end
  end.

Definition same_lengths (cols : list (string * list value)) : bool :=
  match cols with
  | [] => true
  | (_, xs) :: rest =>
      forallb (λ c, Nat.eqb (length (snd c)) (length xs)) rest
  end.

(** The columns pandas holds for arrays of one length. *)
Definition frame_of_arrays `{Env} (cols : list (string * list value))
  : list (string * list value) :=
  map (λ c, (fst c, array_cells (snd c))) cols.

(** [pd.DataFrame(d)].  For a dict of arrays the columns are the keys in
    order, each with the cells pandas makes of its array, and arrays of
    different lengths raise [ValueError]; for any other [d] the outcome
    is pandas', taken from the environment. *)
Definition DataFrame `{Env} (d : value) : result (list (string * list value)) :=
  match d with
  | VDict items =>
      match as_columns items with
      | Some cols =>
          if same_lengths cols then Ok (frame_of_arrays cols)
          else Raise ValueError
      | None => frame_of_other d
      end
  | _ => frame_of_other d
  end.

Fixpoint find_column {A} (c : string) (cols : list (string * A)) : option A :=
  match cols with
  | [] => None
  | (c', xs) :: rest => if String.eqb c c' then Some xs else find_column c rest
  end.

(** [df[c]] *)
Definition column {A} (c : string) (cols : list (string * A)) : result A :=
  match find_column c cols with
  | Some xs => Ok xs
  | None => Raise (KeyError c)
  end.

(** [pd.to_datetime(series)] on the cells of a column. *)
Definition pd_to_datetime `{Env} (xs : list value) : result (list timestamp) :=
  to_datetime xs.

(** The frame after [df['time'] = pd.to_datetime(df['time'])]: the time
    column holds the timestamps, in place; the others are untouched. *)
Definition assign_time (cols : list (string * list value)) (ts : list timestamp)
  : frame :=
  map (λ c, if String.eqb (fst c) "time"
            then (fst c, map CTime ts)
            else (fst c, map CVal (snd c))) cols.

(** [df[[c1, ..., cn]]] *)
Definition select (names : list string) (df : frame) : result frame :=
  map_result (λ c, xs ← column c df; Ok (c, xs)) names.

(** The dict of arrays that carries the columns [cols]. *)
Definition block_of (cols : list (string * list value)) : value :=
  VDict (map (λ c, (fst c, VList (snd c))) cols).

(** The shape of an hourly or daily block: an object of arrays of one
    length, keyed by variable name, which, unless it is empty, has a
    [time] array whose column [pd.to_datetime] turns into the timestamps
    [ts]. *)
Record time_series `{Env} (block : value)
    (cols : list (string * list value)) (ts : list timestamp) : Prop := {
  ts_block : block = block_of cols;
  ts_parallel : ∀ c c', c ∈ cols → c' ∈ cols →
                length (snd c) = length (snd c');
  ts_time : cols ≠ [] →
            ∃ t, find_column "time" cols = Some t
                 ∧ to_datetime (array_cells t) = Ok ts }.

End Pandas.

(** ** Rendering the forecast document *)

Section Renderer.
Context `{Env}.

Definition nonempty {A} (xs : list A) : bool :=
  match xs with [] => false | _ => true end.

Definition NO_CURRENT : string := "현재 날씨 데이터 없음".

(** An optional JSON object: the key is missing, or holds null or an
    object. *)
Definition optional_object (o : option value) : Prop :=
  match o with
  | None | Some VNone | Some (VDict _) => True
  | Some _ => False
  end.

(** [d.get(k)] on the items of a dict. *)
Definition field (k : string) (items : list (string * value)) : value :=
  default VNone (lookup_item k items).

(** The figures among some events, in order. *)
Definition charts_of (es : list event) : list figure :=
  omap (λ e, match e with StPyplot fig => Some fig | _ => None end) es.

(** Lines 82-89: the current-conditions summary. *)
Definition render_current (data : value) : M unit :=
  current ← lift (get data "current_weather" (VDict []));
  if truthy current then
    temperature ← lift (get current "temperature" VNone);
    emit (Col1 (StMetric "현재 기온 (°C)" (py_str temperature ++ " °C"))) ;;
    windspeed ← lift (get current "windspeed" VNone);
    winddirection ← lift (get current "winddirection" VNone);
    emit (Col1 (StWrite ("풍속: " ++ py_str windspeed ++ " m/s, 바람방향: "
                         ++ py_str winddirection ++ "°"))) ;;
    time ← lift (get current "time" VNone);
    emit (Col1 (StWrite ("관측 시간: " ++ py_str time)))
  else
    emit (StWrite NO_CURRENT).

(** Lines 100-105: the figure for one variable. *)
Definition line_chart (var : string) (x y : list cell) : figure :=
  {| fig_title := var; fig_xlabel := "Time"; fig_ylabel := var;
     fig_grid := true; fig_x := x; fig_y := y |}.

(** The body of the loop of lines 98-107.  Drawing is matplotlib's and
    streamlit's: when one of the calls from [ax.plot] to [st.pyplot]
    raises, the loop ends there and no figure is shown. *)
Definition plot_if_present (df_hour : frame) (var : string) : M unit :=
  match Pandas.find_column var df_hour with
  | Some y =>
      x ← lift (Pandas.column "time" df_hour);
      match draw_error var x y with
      | Some e => lift (Raise e)
      | None => emit (StPyplot (line_chart var x y))
      end
  | None => mret tt
  end.

(** Lines 92-107: one chart per selected hourly variable. *)
Definition render_hourly (data : value) (hourly_options : list string) : M unit :=
  hourly ← lift (get data "hourly" (VDict []));
  if truthy hourly && nonempty hourly_options then
    cols ← lift (Pandas.DataFrame hourly);
    time ← lift (Pandas.column "time" cols);
    ts ← lift (Pandas.pd_to_datetime time);
    let df_hour := Pandas.assign_time cols ts in
    emit (StSubheader "시간별 데이터") ;;
    for_each (plot_if_present df_hour) hourly_options
  else mret tt.

Definition shown_columns (df_daily : frame) (daily_options : list string)
  : list string :=
  "time" :: filter (λ c, c ∈ daily_options) (map fst df_daily).

(** Lines 110-115: the daily table, which [st.dataframe] shows or
    refuses. *)
Definition render_daily (data : value) (daily_options : list string) : M unit :=
  daily ← lift (get data "daily" (VDict []));
  if truthy daily && nonempty daily_options then
    emit (StSubheader "일별 요약") ;;
    cols ← lift (Pandas.DataFrame daily);
    time ← lift (Pandas.column "time" cols);
    ts ← lift (Pandas.pd_to_datetime time);
    let df_daily := Pandas.assign_time cols ts in
    table ← lift (Pandas.select (shown_columns df_daily daily_options) df_daily);
    match dataframe_error table with
    | Some e => lift (Raise e)
    | None => emit (StDataframe table)
    end
  else mret tt.

End Renderer.

(** ** The search pipeline *)

Section Pipeline.
Context `{Env}.

(** One entry of [rows] (line 67). *)
Record row := {
  row_name : string;
  row_lat : value;
  row_lon : value;
  row_timezone : value }.

(** Line 66: the name a candidate is listed under. *)
Definition display_name (name country admin1 : value) : string :=
  py_str name ++ ", " ++ py_str country
  ++ " (" ++ py_str (py_or admin1 (VStr EmptyString)) ++ ")".

(** Lines 66-67 for one candidate [r]. *)
Definition row_of (r : value) : result row :=
  name ← get r "name" VNone;
  country ← get r "country" VNone;
  admin1 ← get r "admin1" VNone;
  lat ← getitem r "latitude";
  lon ← getitem r "longitude";
  timezone ← get r "timezone" VNone;
  Ok {| row_name := display_name name country admin1;
        row_lat := lat; row_lon := lon; row_timezone := timezone |}.

(** Lines 64-67: the loop over [results].  Iterating a dict or a string
    yields strings, which have no [get]; a number is not iterable. *)
Definition build_rows (results : value) : result (list row) :=
  match results with
  | VList candidates => map_result row_of candidates
  | VDict [] | VStr EmptyString => Ok []
  | VDict _ | VStr _ => Raise AttributeError
  | _ => Raise TypeError
  end.

(** [st.radio(label, options)] returns the option the user has picked, the
    first one when nothing valid is picked, [None] without options. *)
Definition st_radio (options : list string) (pick : nat) : option string :=
  match options !! pick with
  | Some s => Some s
  | None => head options
  end.

(** [df.iloc[idx][c]] for a column with the cells [cells]. *)
Definition iloc (cells : list value) (idx : nat) : result value :=
  match cells !! idx with
  | Some v => Ok v
  | None => Raise IndexError
  end.

(** Lines 68-74.  [df = pd.DataFrame(rows)] has the columns [name], [lat],
    [lon] and [timezone].  The names are strings, which the [name] column
    gives back as they are, so [df["name"].tolist()] is the names in
    order.  The other three columns hold what pandas makes of the rows'
    values, and [df.iloc[idx]] reads the cells at [idx]. *)
Definition resolve_selection (rows : list row) (pick : nat)
  : result (string * (float * float * value)) :=
  let names := map row_name rows in
  sel ← match st_radio names pick with
        | Some s => Ok s
        | None => Raise ValueError
        end;
  idx ← index sel names;
  lat_cell ← iloc (records_cells (map row_lat rows)) idx;
  lon_cell ← iloc (records_cells (map row_lon rows)) idx;
  tz_cell ← iloc (records_cells (map row_timezone rows)) idx;
  lat ← py_float float_of_str lat_cell;
  lon ← py_float float_of_str lon_cell;
  Ok (sel, (lat, lon, py_or tz_cell (VStr "UTC"))).

(** The values of the sidebar widgets when the script runs, and the option
    picked in the radio of the results. *)
Record inputs := {
  q : string;
  max_results : Z;
  days : Z;
  hourly_options : list string;
  daily_options : list string;
  search_btn : bool;
  pick : nat }.

Definition NO_RESULTS : string := "검색 결과 없음 — 다른 키워드로 시도해".
Definition START_HINT : string :=
  "왼쪽 패널에서 장소를 검색하고 '검색' 버튼을 눌러 시작하세요.".

(** Lines 63-124: what follows a non-empty geocoding result.  [st.map]
    shows the point or refuses it. *)
Definition show_results (i : inputs) (results : value) : M unit :=
  rows ← lift (build_rows results);
  emit (StSubheader "검색 결과") ;;
  emit (StRadio "지역 선택" (map row_name rows)) ;;
  '(sel, (lat, lon, tz)) ← lift (resolve_selection rows (pick i));
  emit (StMarkdown ("**선택:** " ++ sel ++ " — 위도: " ++ py_fmt4f lat
                    ++ ", 경도: " ++ py_fmt4f lon
                    ++ ", timezone: " ++ py_str tz)) ;;
  emit (StSpinner "예보 불러오는 중...") ;;
  data ← fetch_forecast lat lon tz (hourly_options i) (daily_options i) (days i);
  render_current data ;;
  render_hourly data (hourly_options i) ;;
  render_daily data (daily_options i) ;;
  emit (StSubheader "지도") ;;
  match map_error lat lon with
  | Some e => lift (Raise e)
  | None => emit (StMap lat lon 10)
  end ;;
  emit (StExpander "원본 API 응답 보기 (JSON)") ;;
  emit (StJson data).

(** Lines 57-126: one run of the script below the sidebar. *)
Definition script (i : inputs) : M unit :=
  if search_btn i && truthy (VStr (strip (q i))) then
    emit (StSpinner "위치 검색 중...") ;;
    results ← geocode (q i) (max_results i);
    if negb (truthy results) then emit (StWarning NO_RESULTS)
    else show_results i results
  else
    emit (StInfo START_HINT).

End Pipeline.

(** ** Example environments and documents *)

Module Demo.

(** [str] for the values the examples show: [None], booleans, integers,
    strings and NaN.  The other values are not shown in the examples and
    stand as their kind. *)
Definition show (v : value) : string :=
  match v with
  | VNone => "None"
  | VBool true => "True"
  | VBool false => "False"
  | VInt n => pretty n
  | VStr s => s
  | VFloat S754_nan => "nan"
  | VFloat _ => "float"
  | VList _ => "list"
  | VDict _ => "dict"
  end.

(** The examples give times as integers, which [pd.to_datetime] reads as
    nanoseconds since the epoch, and once as the string "soon", which it
    cannot parse ([ValueError]); the example environment refuses every
    cell that is not an integer. *)
Definition read_times (xs : list value) : result (list timestamp) :=
  map_result (λ v, match v with VInt n => Ok n | _ => Raise ValueError end) xs.

Lemma read_times_length (xs : list value) (ts : list timestamp) :
  read_times xs = Ok ts → length ts = length xs.
Proof.
  unfold read_times. revert ts.
  induction xs as [ | x xs IH]; intros ts; simpl.
  - intros [= <-]. reflexivity.
  - destruct x; try discriminate.
    destruct (map_result _ xs) as [ts' | e]; [ | discriminate].
    intros [= <-]. simpl. f_equal. apply IH. reflexivity.
Qed.

Definition is_str (v : value) : bool :=
  match v with VStr _ => true | _ => false end.

Definition is_float (v : value) : bool :=
  match v with VFloat _ => true | _ => false end.

Definition is_missing (v : value) : bool :=
  match v with VNone => true | _ => false end.

Definition nan_if_missing (v : value) : value :=
  match v with VNone => VFloat S754_nan | _ => v end.

(** The cells pandas 3 holds for the columns of the examples.  Beside a
    string (a column of strings and missing values) and beside a float (a
    column of floats and missing values) a missing value is held as NaN.
    The other columns of the examples have integers only or missing
    values only, and are held as they are. *)
Definition held (xs : list value) : list value :=
  if (forallb (λ v, is_str v || is_missing v) xs && existsb is_str xs)
     || (forallb (λ v, is_float v || is_missing v) xs && existsb is_float xs)
  then map nan_if_missing xs
  else xs.

Lemma held_length (xs : list value) : length (held xs) = length xs.
Proof. unfold held. destruct (_ || _); [apply length_map | reflexivity]. Qed.

Definition is_nan (x : float) : bool :=
  match x with S754_nan => true | _ => false end.

Definition is_text (c : cell) : bool :=
  match c with CVal (VStr _) => true | _ => false end.

(** matplotlib draws the numbers of the examples against their
    timestamps.  A column that starts with a string goes on a category
    axis, where every value has to be a string: any other value raises
    [TypeError]. *)
Definition refused_chart (var : string) (x y : list cell) : option exn :=
  match y with
  | CVal (VStr _) :: rest =>
      if forallb is_text rest then None else Some TypeError
  | _ => None
  end.

(** [st.map] refuses a point with a NaN coordinate. *)
Definition refused_point (lat lon : float) : option exn :=
  if is_nan lat || is_nan lon then Some StreamlitAPIException else None.

(** Only a dict of arrays is made a frame in the examples. *)
Definition no_frame (d : value) : result (list (string * list value)) :=
  Raise ValueError.

(** [num / den] rounded to the nearest integer, halves to the even one,
    for [0 ≤ num] and [0 < den]. *)
Definition round_half_even (num den : Z) : Z :=
  let q := num / den in
  let r := num mod den in
  if 2 * r <? den then q
  else if den <? 2 * r then q + 1
  else if Z.even q then q else q + 1.

(** The four decimals of [n / 10000], for [0 ≤ n]. *)
Definition fixed4 (n : Z) : string :=
  let frac := n mod 10000 in
  pretty (n / 10000) ++ "."
  ++ (if frac <? 10 then "000" else if frac <? 100 then "00"
      else if frac <? 1000 then "0" else EmptyString)
  ++ pretty frac.

(** [f"{x:.4f}"]: the exact value of the float, rounded to four
    decimals. *)
Definition fmt4f (x : float) : string :=
  match x with
  | S754_nan => "nan"
  | S754_infinity s => if s then "-inf" else "inf"
  | S754_zero s => if s then "-0.0000" else "0.0000"
  | S754_finite s m e =>
      (if s then "-" else EmptyString)
      ++ fixed4 (if 0 <=? e then Z.pos m * 2 ^ e * 10000
                 else round_half_even (Z.pos m * 10000) (2 ^ (- e)))
  end.

(** The example environment.  No coordinate of the examples is given as a
    string, so [float(str)] is not needed and refuses every string. *)
Definition env (service : nat → request → response) : Env :=
  {| service := service;
     py_str := show;
     py_fmt4f := fmt4f;
     float_of_str := λ _, None;
     records_cells := held;
     records_cells_length := held_length;
     array_cells := held;
     array_cells_length := held_length;
     frame_of_other := no_frame;
     to_datetime := read_times;
     to_datetime_length := read_times_length;
     draw_error := refused_chart;
     dataframe_error := λ _, None;
     map_error := refused_point |}.

(** 37.5 and 127.0 *)
Definition lat_seoul : float := S754_finite false 75 (-1).
Definition lon_seoul : float := S754_finite false 127 0.

Definition seoul : value :=
  VDict [("name", VStr "Seoul"); ("country", VStr "South Korea");
         ("admin1", VStr "Seoul"); ("latitude", VFloat lat_seoul);
         ("longitude", VFloat lon_seoul); ("timezone", VStr "Asia/Seoul")].

(** A second place listed under the same name, without a timezone. *)
Definition seoul_twin : value :=
  VDict [("name", VStr "Seoul"); ("country", VStr "South Korea");
         ("admin1", VStr "Seoul"); ("latitude", VFloat lon_seoul);
         ("longitude", VFloat lat_seoul)].

Definition day : Z := 86400000000000.

Definition hourly_cols : list (string * list value) :=
  [("time", [VInt 0; VInt 3600000000000]);
   ("temperature_2m", [VInt 21; VInt 22])].

Definition daily_cols : list (string * list value) :=
  [("time", [VInt 0; VInt day]);
   ("temperature_2m_max", [VInt 25; VInt 27]);
   ("precipitation_sum", [VInt 0; VInt 3])].

Definition current : list (string * value) :=
  [("temperature", VInt 21); ("windspeed", VInt 3);
   ("winddirection", VInt 270); ("time", VStr "2024-01-01T00:00")].

Definition forecast_items : list (string * value) :=
  [("current_weather", VDict current);
   ("hourly", Pandas.block_of hourly_cols);
   ("daily", Pandas.block_of daily_cols)].

Definition forecast : value := VDict forecast_items.

(** A geocoding service that honours [count] with at most one place, and
    a forecast service that always answers with [forecast]. *)
Definition count_of (rq : request) : Z :=
  match lookup_item "count" (req_params rq) with
  | Some (VInt n) => n
  | _ => 0
  end.

Definition honest (n : nat) (rq : request) : response :=
  if String.eqb (req_url rq) GEOCODE_URL then
    Response 200
      (Some (VDict [("results", VList (if 1 <=? count_of rq then [seoul] else []))]))
  else Response 200 (Some forecast).

(** A geocoding service that lists the place without a timezone first,
    and a forecast service that always answers with [forecast]. *)
Definition twin_first (n : nat) (rq : request) : response :=
  if String.eqb (req_url rq) GEOCODE_URL then
    Response 200 (Some (VDict [("results", VList [seoul_twin; seoul])]))
  else Response 200 (Some forecast).

(** A geocoding service that answers with two places whatever [count]. *)
Definition greedy (n : nat) (rq : request) : response :=
  Response 200 (Some (VDict [("results", VList [seoul; seoul_twin])])).

(** Services whose answer to a search has no place, or no [results]. *)
Definition nothing_found (n : nat) (rq : request) : response :=
  Response 200 (Some (VDict [("results", VList [])])).

Definition no_results_key (n : nat) (rq : request) : response :=
  Response 200 (Some (VDict [("generationtime_ms", VInt 1)])).

Definition empty_results (n : nat) (rq : request) : response :=
  Response 200
    (Some (VDict [("results", VList []); ("generationtime_ms", VInt 1)])).

(** A forecast whose hourly and daily blocks have no [time] array. *)
Definition forecast_without_time : value :=
  VDict [("hourly", VDict [("temperature_2m", VList [VInt 21; VInt 22])]);
         ("daily", VDict [("temperature_2m_max", VList [VInt 25; VInt 27])])].

(** Forecasts whose arrays differ in length, and whose times are no
    timestamps. *)
Definition forecast_ragged : value :=
  VDict [("hourly", VDict [("time", VList [VInt 0; VInt 3600000000000]);
                           ("temperature_2m", VList [VInt 21])]);
         ("daily", VDict [("time", VList [VInt 0; VInt day]);
                          ("temperature_2m_max", VList [VInt 25])])].

(** A forecast whose hourly temperatures start with a string. *)
Definition forecast_mixed : value :=
  VDict [("hourly", VDict [("time", VList [VInt 0; VInt 3600000000000]);
                           ("temperature_2m", VList [VStr "a"; VInt 1])])].

Definition forecast_bad_time : value :=
  VDict [("hourly", VDict [("time", VList [VStr "soon"]);
                           ("temperature_2m", VList [VInt 21])]);
         ("daily", VDict [("time", VList [VStr "soon"]);
                          ("temperature_2m_max", VList [VInt 25])])].

(** Services that are down: every answer is a 503 without a body. *)
Definition down (n : nat) (rq : request) : response := Response 503 None.

(** A geocoding service whose body is JSON but not an object. *)
Definition array_body (n : nat) (rq : request) : response :=
  Response 200 (Some (VList [])).

Definition start : world :=
  {| now := 0; sent := []; geocode_cache := []; forecast_cache := []; trace := [] |}.

Definition search (query : string) : inputs :=
  {| q := query; max_results := 5; days := 7;
     hourly_options := ["temperature_2m"; "precipitation"];
     daily_options := ["temperature_2m_max"; "temperature_2m_min"; "precipitation_sum"];
     search_btn := true; pick := 0 |}.

Definition blank : inputs := search "   ".

Definition seoul_args : forecast_args :=
  {| fa_lat := lat_seoul; fa_lon := lon_seoul; fa_tz := VStr "Asia/Seoul";
     fa_hourly := ["temperature_2m"]; fa_daily := ["temperature_2m_max"];
     fa_days := 7 |}.

(** The world after a first fetch for Seoul from [start]. *)
Definition fetched : world :=
  snd (@fetch_forecast (env honest) lat_seoul lon_seoul (VStr "Asia/Seoul")
         ["temperature_2m"] ["temperature_2m_max"] 7 start).

(** The world after a search from [start], for a service and a query. *)
Definition searched (service : nat → request → response)
    (query : string) (limit : Z) : world :=
  snd (@geocode (env service) query limit
         (add_event (StSpinner "위치 검색 중...") start)).

(** The world after a search for Seoul from [start]. *)
Definition searched_seoul : world :=
  snd (@geocode (env honest) "Seoul" 5 start).

(** A geocoding service whose [results] is null. *)
Definition null_results (n : nat) (rq : request) : response :=
  Response 200 (Some (VDict [("results", VNone)])).

(** The geocoding service answers; the forecast service is down. *)
Definition forecast_down (n : nat) (rq : request) : response :=
  if String.eqb (req_url rq) GEOCODE_URL then honest n rq else down n rq.

Definition listed_name : string := "Seoul, South Korea (Seoul)".

Definition rows : list row :=
  [ {| row_name := listed_name; row_lat := VFloat lat_seoul;
       row_lon := VFloat lon_seoul; row_timezone := VStr "Asia/Seoul" |};
    {| row_name := listed_name; row_lat := VFloat lon_seoul;
       row_lon := VFloat lat_seoul; row_timezone := VNone |} ].

End Demo.

(** * Properties *)

(** ** Equality of cache keys *)

Lemma float_same_refl (x : float) : float_same x x = true.
Proof.
  destruct x as [s | s | | s m e]; simpl; try reflexivity.
  - apply eqb_reflx.
  - apply eqb_reflx.
  - rewrite eqb_reflx, Pos.eqb_refl, Z.eqb_refl. reflexivity.
Qed.

Lemma value_same_refl : ∀ v : value, value_same v v = true.
Proof.
  fix IH 1. intros [ | b | n | x | s | xs | items]; simpl.
  - reflexivity.
  - apply eqb_reflx.
  - apply Z.eqb_refl.
  - apply float_same_refl.
  - apply String.eqb_refl.
  - induction xs as [ | y ys IHys]; [reflexivity | ].
    rewrite IH, IHys. reflexivity.
  - induction items as [ | [k y] ys IHys]; [reflexivity | ].
    rewrite String.eqb_refl, IH, IHys. reflexivity.
Qed.

Lemma forecast_args_same_refl (a : forecast_args) : forecast_args_same a a = true.
Proof.
  unfold forecast_args_same, strings_same.
  rewrite !float_same_refl, value_same_refl, Z.eqb_refl.
  rewrite !bool_decide_eq_true_2 by reflexivity. reflexivity.
Qed.


(** ** The forecast client *)

Lemma forecast_params_hourly (a : forecast_args) :
  lookup_item "hourly" (forecast_params a) = 
  match fa_hourly a with
  | [] => None
  | _ => Some (VStr (join "," (fa_hourly a)))
  end.
Proof.
  destruct a as [lat lon tz hv dv ds]. unfold forecast_params. simpl.
  destruct hv, dv, tz; reflexivity.
Qed.

Lemma forecast_params_daily (a : forecast_args) :
  lookup_item "daily" (forecast_params a) = 
  match fa_daily a with
  | [] => None
  | _ => Some (VStr (join "," (fa_daily a)))
  end.
Proof.
  destruct a as [lat lon tz hv dv ds]. unfold forecast_params. simpl.
  destruct hv, dv, tz; reflexivity.
Qed.

Lemma new_requests_same (w w' : world) :
  sent w' = sent w → new_requests w w' = [].
Proof.
  intros E. unfold new_requests. rewrite E. apply drop_all.
Qed.

Lemma new_requests_one (w w' : world) (rq : request) :
  sent w' = (sent w ++ [rq])%list → new_requests w w' = [rq].
Proof.
  intros E. unfold new_requests. rewrite E.
  rewrite drop_app_length. reflexivity.
Qed.

(** The body of [fetch_forecast] sends exactly one request, to the
    forecast endpoint, and touches nothing else of the world. *)
Lemma fetch_forecast_body_world `{Env} (a : forecast_args) (w : world) :
  snd (fetch_forecast_body a w)
  = add_sent {| req_url := FORECAST_URL; req_params := forecast_params a |} w.
Proof.
  unfold fetch_forecast_body, mbind, M_bind, requests_get, lift.
  destruct (service _ _) as [ | status body]; [reflexivity | ].
  destruct (raise_for_status (status, body)); simpl; [ | reflexivity].
  destruct (json (status, body)); reflexivity.
Qed.

(** What one invocation of [fetch_forecast] does to the requests sent:
    nothing on a hit, one request to the forecast endpoint otherwise. *)
Lemma fetch_forecast_sent `{Env} lat lon tz hv dv ds (w : world) :
  let a := {| fa_lat := lat; fa_lon := lon; fa_tz := tz;
              fa_hourly := hv; fa_daily := dv; fa_days := ds |} in
  let w' := snd (fetch_forecast lat lon tz hv dv ds w) in
  sent w' = 
  if in_window forecast_args_same a (forecast_cache w) (now w)
  then sent w
  else (sent w ++ [{| req_url := FORECAST_URL; req_params := forecast_params a |}])%list.
Proof.
  intros a w'. subst w'. unfold fetch_forecast, cache_data, in_window. simpl.
  fold a.
  pose proof (fetch_forecast_body_world a (add_event (Called "fetch_forecast") w)) as Hb.
  destruct (cache_find forecast_args_same a (forecast_cache w)) as [[v expires] | ].
  - destruct (now w <? expires); [reflexivity | ].
    destruct (fetch_forecast_body a _) as [[v' | e] w1]; simpl in *; subst w1; reflexivity.
  - destruct (fetch_forecast_body a _) as [[v' | e] w1]; simpl in *; subst w1; reflexivity.
Qed.

(** C1: a call of [fetch_forecast] that finds no live entry in the store
    sends exactly one request, and a call that finds one sends none.  The
    request has no [hourly] parameter at all when no hourly variable is
    selected, and otherwise carries the selected names joined by commas
    under [hourly]; the same holds for [daily]. *)
Theorem fetch_forecast_omits_empty_selection `{Env}
    lat lon tz (hourly_vars daily_vars : list string) ds (w : world) :
  let a := {| fa_lat := lat; fa_lon := lon; fa_tz := tz;
              fa_hourly := hourly_vars; fa_daily := daily_vars;
              fa_days := ds |} in
  new_requests w (snd (fetch_forecast lat lon tz hourly_vars daily_vars ds w))
  = (if in_window forecast_args_same a (forecast_cache w) (now w)
     then []
     else [forecast_request a])
  ∧ lookup_item "hourly" (req_params (forecast_request a))
    = match hourly_vars with
      | [] => None
      | _ => Some (VStr (join "," hourly_vars))
      end
  ∧ lookup_item "daily" (req_params (forecast_request a))
    = match daily_vars with
      | [] => None
      | _ => Some (VStr (join "," daily_vars))
      end.
Proof.
  intros a.
  pose proof (fetch_forecast_sent lat lon tz hourly_vars daily_vars ds w) as Hs.
  simpl in Hs. fold a in Hs. split; [ | split].
  - destruct (in_window _ _ _ _).
    + exact (new_requests_same _ _ Hs).
    + exact (new_requests_one _ _ _ Hs).
  - exact (forecast_params_hourly a).
  - exact (forecast_params_daily a).
Qed.

(** A call that returns leaves its value in the store under its key. *)
Lemma fetch_forecast_stores `{Env} lat lon tz hv dv ds (w0 w1 : world) (v : value) :
  fetch_forecast lat lon tz hv dv ds w0 = (Ok v, w1) →
  ∃ expires,
    cache_find forecast_args_same
      {| fa_lat := lat; fa_lon := lon; fa_tz := tz;
         fa_hourly := hv; fa_daily := dv; fa_days := ds |}
      (forecast_cache w1) = Some (v, expires).
Proof.
  unfold fetch_forecast, cache_data. simpl.
  set (a := {| fa_lat := lat |}).
  destruct (cache_find forecast_args_same a (forecast_cache w0))
    as [[v0 expires] | ] eqn:Hfind.
  - destruct (now w0 <? expires).
    + intros [= <- <-]. exists expires. exact Hfind.
    + destruct (fetch_forecast_body a _) as [[v' | e] w']; intros [= <- <-].
      simpl. rewrite forecast_args_same_refl. eauto.
  - destruct (fetch_forecast_body a _) as [[v' | e] w']; intros [= <- <-].
    simpl. rewrite forecast_args_same_refl. eauto.
Qed.

(** A call that raises leaves the store as it was. *)
Lemma fetch_forecast_raise_stores_nothing `{Env} lat lon tz hv dv ds
    (w0 w1 : world) (e : exn) :
  fetch_forecast lat lon tz hv dv ds w0 = (Raise e, w1) →
  forecast_cache w1 = forecast_cache w0.
Proof.
  unfold fetch_forecast, cache_data. simpl.
  set (a := {| fa_lat := lat |}).
  pose proof (fetch_forecast_body_world a (add_event (Called "fetch_forecast") w0)) as Hb.
  destruct (cache_find forecast_args_same a (forecast_cache w0)) as [[v0 expires] | ].
  - destruct (now w0 <? expires); [discriminate | ].
    destruct (fetch_forecast_body a _) as [[v' | e'] w']; intros [= <- <-].
    simpl in Hb. subst w'. reflexivity.
  - destruct (fetch_forecast_body a _) as [[v' | e'] w']; intros [= <- <-].
    simpl in Hb. subst w'. reflexivity.
Qed.

(** A call that raises found no live entry for its key. *)
Lemma fetch_forecast_raise_was_miss `{Env} lat lon tz hv dv ds
    (w0 w1 : world) (e : exn) :
  fetch_forecast lat lon tz hv dv ds w0 = (Raise e, w1) →
  in_window forecast_args_same
    {| fa_lat := lat; fa_lon := lon; fa_tz := tz;
       fa_hourly := hv; fa_daily := dv; fa_days := ds |}
    (forecast_cache w0) (now w0) = false.
Proof.
  unfold fetch_forecast, cache_data, in_window. simpl.
  destruct (cache_find forecast_args_same _ (forecast_cache w0)) as [[v0 expires] | ];
    [ | reflexivity].
  destruct (now w0 <? expires); [discriminate | reflexivity].
Qed.

Lemma in_window_later {K} (same : K → K → bool) (k : K) (c : cache K) (t t' : Z) :
  t ≤ t' → in_window same k c t' = true → in_window same k c t = true.
Proof.
  unfold in_window. destruct (cache_find same k c) as [[v expires] | ];
    [ | discriminate].
  intros Hle Hw. apply Z.ltb_lt in Hw. apply Z.ltb_lt. lia.
Qed.

(** C2: take two calls of [fetch_forecast] with the same arguments, the
    second one no earlier than the first and inside the ten-minute window
    of the entry the store holds for these arguments after the first.
    Then both return the same document, the second sends no request, and
    the two together send at most one. *)
Theorem fetch_forecast_twice_in_window `{Env} lat lon tz hv dv ds
    (w0 : world) (t2 : Z) :
  now w0 ≤ t2 →
  in_window forecast_args_same
    {| fa_lat := lat; fa_lon := lon; fa_tz := tz;
       fa_hourly := hv; fa_daily := dv; fa_days := ds |}
    (forecast_cache (snd (fetch_forecast lat lon tz hv dv ds w0))) t2 = true →
  ∃ v w2,
    fst (fetch_forecast lat lon tz hv dv ds w0) = Ok v
    ∧ fetch_forecast lat lon tz hv dv ds
        (set_now t2 (snd (fetch_forecast lat lon tz hv dv ds w0)))
      = (Ok v, w2)
    ∧ new_requests (snd (fetch_forecast lat lon tz hv dv ds w0)) w2 = []
    ∧ (length (new_requests w0 w2) ≤ 1)%nat.
Proof.
  intros Hlater Hwin.
  destruct (fetch_forecast lat lon tz hv dv ds w0) as [[v | e] w1] eqn:Hfirst;
    simpl in *.
  - destruct (fetch_forecast_stores _ _ _ _ _ _ _ _ _ Hfirst) as [expires Hfind].
    unfold in_window in Hwin. rewrite Hfind in Hwin.
    exists v, (add_event (Called "fetch_forecast") (set_now t2 w1)).
    split; [reflexivity | split; [ | split]].
    + unfold fetch_forecast, cache_data. simpl. rewrite Hfind, Hwin. reflexivity.
    + apply new_requests_same. reflexivity.
    + pose proof (fetch_forecast_sent lat lon tz hv dv ds w0) as Hs.
      simpl in Hs. rewrite Hfirst in Hs. simpl in Hs.
      unfold new_requests. simpl. rewrite Hs.
      destruct (in_window _ _ _ _).
      * rewrite drop_all. simpl. lia.
      * rewrite drop_app_length. simpl. lia.
  - rewrite (fetch_forecast_raise_stores_nothing _ _ _ _ _ _ _ _ _ Hfirst) in Hwin.
    apply (in_window_later _ _ _ _ _ Hlater) in Hwin.
    rewrite (fetch_forecast_raise_was_miss _ _ _ _ _ _ _ _ _ Hfirst) in Hwin.
    discriminate.
Qed.

(** After a miss the window is the ten minutes that follow the call. *)
Lemma fetch_forecast_window_after_miss `{Env} lat lon tz hv dv ds
    (w0 w1 : world) (v : value) (t : Z) :
  in_window forecast_args_same
    {| fa_lat := lat; fa_lon := lon; fa_tz := tz;
       fa_hourly := hv; fa_daily := dv; fa_days := ds |}
    (forecast_cache w0) (now w0) = false →
  fetch_forecast lat lon tz hv dv ds w0 = (Ok v, w1) →
  in_window forecast_args_same
    {| fa_lat := lat; fa_lon := lon; fa_tz := tz;
       fa_hourly := hv; fa_daily := dv; fa_days := ds |}
    (forecast_cache w1) t
  = (t <? now w0 + 60 * 10).
Proof.
  unfold fetch_forecast, cache_data, in_window. simpl.
  set (a := {| fa_lat := lat |}).
  pose proof (fetch_forecast_body_world a (add_event (Called "fetch_forecast") w0)) as Hb.
  assert (Hnow : now (snd (fetch_forecast_body a (add_event (Called "fetch_forecast") w0)))
                 = now w0).
  { rewrite Hb. reflexivity. }
  clear Hb.
  destruct (cache_find forecast_args_same a (forecast_cache w0)) as [[v0 expires] | ].
  - intros ->.
    destruct (fetch_forecast_body a _) as [[v' | e] w']; intros [= <- <-].
    simpl in *. rewrite forecast_args_same_refl, Hnow. reflexivity.
  - intros _.
    destruct (fetch_forecast_body a _) as [[v' | e] w']; intros [= <- <-].
    simpl in *. rewrite forecast_args_same_refl, Hnow. reflexivity.
Qed.

(** ** The geocode client *)

(** The body of [geocode] sends exactly one request, to the geocoding
    endpoint, and touches nothing else of the world. *)
Lemma geocode_body_world `{Env} (k : string * Z) (w : world) :
  snd (geocode_body k w) = add_sent (geocode_request (fst k) (snd k)) w.
Proof.
  unfold geocode_body, mbind, M_bind, requests_get, lift, geocode_request.
  destruct (service _ _) as [ | status body]; [reflexivity | ].
  destruct (raise_for_status (status, body)); simpl; [ | reflexivity].
  destruct (json (status, body)) as [j | e]; simpl; [ | reflexivity].
  destruct (get j "results" (VList [])); reflexivity.
Qed.

(** What the body returns, read off the answer of the service. *)
Lemma geocode_body_result `{Env} (k : string * Z) (w : world) :
  fst (geocode_body k w)
  = match service (length (sent w)) (geocode_request (fst k) (snd k)) with
    | NoResponse why => Raise (failure_exn why)
    | Response status body =>
        if (400 <=? status) && (status <? 600) then Raise (HTTPError status)
        else match body with
             | None => Raise JSONDecodeError
             | Some j => get j "results" (VList [])
             end
    end.
Proof.
  unfold geocode_body, mbind, M_bind, requests_get, lift, geocode_request.
  destruct (service _ _) as [ | status body]; [reflexivity | ].
  unfold raise_for_status, json. simpl.
  destruct ((400 <=? status) && (status <? 600)); [reflexivity | ].
  destruct body as [j | ]; [ | reflexivity].
  destruct (get j "results" (VList [])); reflexivity.
Qed.

(** One invocation of [geocode], case by case. *)
Lemma geocode_unfold `{Env} (query : string) (limit : Z) (w : world) :
  let w1 := add_event (Called "geocode") w in
  geocode query limit w
  = match cache_find geocode_key_same (query, limit) (geocode_cache w) with
    | Some (v, expires) =>
        if now w <? expires then (Ok v, w1)
        else match geocode_body (query, limit) w1 with
             | (Ok v', w') =>
                 (Ok v', set_geocode_cache
                           (((query, limit), (v', now w' + 60 * 60)) :: geocode_cache w') w')
             | (Raise e, w') => (Raise e, w')
             end
    | None =>
        match geocode_body (query, limit) w1 with
        | (Ok v', w') =>
            (Ok v', set_geocode_cache
                      (((query, limit), (v', now w' + 60 * 60)) :: geocode_cache w') w')
        | (Raise e, w') => (Raise e, w')
        end
    end.
Proof. reflexivity. Qed.

(** An invocation of [geocode] emits its own call and nothing else. *)
Lemma geocode_trace `{Env} (query : string) (limit : Z) (w : world) :
  trace (snd (geocode query limit w)) = (trace w ++ [Called "geocode"])%list.
Proof.
  rewrite geocode_unfold. simpl.
  pose proof (geocode_body_world (query, limit) (add_event (Called "geocode") w)) as Hb.
  destruct (cache_find _ _ _) as [[v expires] | ].
  - destruct (now w <? expires); [reflexivity | ].
    destruct (geocode_body _ _) as [[v' | e] w']; simpl in *; subst w'; reflexivity.
  - destruct (geocode_body _ _) as [[v' | e] w']; simpl in *; subst w'; reflexivity.
Qed.

(** What one invocation of [geocode] does to the requests sent. *)
Lemma geocode_sent `{Env} (query : string) (limit : Z) (w : world) :
  sent (snd (geocode query limit w))
  = if in_window geocode_key_same (query, limit) (geocode_cache w) (now w)
    then sent w
    else (sent w ++ [geocode_request query limit])%list.
Proof.
  rewrite geocode_unfold. unfold in_window. simpl.
  pose proof (geocode_body_world (query, limit) (add_event (Called "geocode") w)) as Hb.
  destruct (cache_find _ _ _) as [[v expires] | ].
  - destruct (now w <? expires); [reflexivity | ].
    destruct (geocode_body _ _) as [[v' | e] w']; simpl in *; subst w'; reflexivity.
  - destruct (geocode_body _ _) as [[v' | e] w']; simpl in *; subst w'; reflexivity.
Qed.

(** On a miss the value returned is the one the body returns. *)
Lemma geocode_miss_result `{Env} (query : string) (limit : Z) (w : world) :
  in_window geocode_key_same (query, limit) (geocode_cache w) (now w) = false →
  fst (geocode query limit w)
  = fst (geocode_body (query, limit) (add_event (Called "geocode") w)).
Proof.
  rewrite geocode_unfold. unfold in_window. simpl.
  destruct (cache_find _ _ _) as [[v expires] | ].
  - intros ->. destruct (geocode_body _ _) as [[v' | e] w']; reflexivity.
  - intros _. destruct (geocode_body _ _) as [[v' | e] w']; reflexivity.
Qed.

Lemma geocode_body_unfold `{Env} (k : string * Z) (w : world) :
  geocode_body k w
  = (match service (length (sent w)) (geocode_request (fst k) (snd k)) with
     | NoResponse why => Raise (failure_exn why)
     | Response status body =>
         if (400 <=? status) && (status <? 600) then Raise (HTTPError status)
         else match body with
              | None => Raise JSONDecodeError
              | Some j => get j "results" (VList [])
              end
     end,
     add_sent (geocode_request (fst k) (snd k)) w).
Proof.
  rewrite <- geocode_body_result, <- geocode_body_world.
  destruct (geocode_body k w); reflexivity.
Qed.


Lemma geocode_key_same_eq (a b : string * Z) :
  geocode_key_same a b = true → a = b.
Proof.
  destruct a as [s n], b as [s' n']. unfold geocode_key_same. simpl.
  intros Hab. apply andb_prop in Hab as [Hs Hn].
  apply String.eqb_eq in Hs. apply Z.eqb_eq in Hn. congruence.
Qed.

(** C10, amended: a 2xx answer whose body is a JSON object without
    [results] makes [geocode] return the empty list, and no error; the
    outcome is the one of an answer that carries an empty [results]
    list. *)
Theorem geocode_missing_results_is_empty (E E' : Env)
    (query : string) (limit : Z) (w : world)
    (status : Z) (items : list (string * value)) :
  in_window geocode_key_same (query, limit) (geocode_cache w) (now w) = false →
  @service E (length (sent w)) (geocode_request query limit)
    = Response status (Some (VDict items)) →
  200 ≤ status < 300 →
  lookup_item "results" items = None →
  @service E' (length (sent w)) (geocode_request query limit)
    = Response status (Some (VDict (("results", VList []) :: items))) →
  fst (@geocode E query limit w) = Ok (VList [])
  ∧ @geocode E query limit w = @geocode E' query limit w.
Proof.
  intros Hmiss Hans Hst Hno Hans'.
  assert (Hraise : (400 <=? status) && (status <? 600) = false).
  { apply andb_false_iff. left. apply Z.leb_gt. lia. }
  assert (Hbody : @geocode_body E (query, limit) (add_event (Called "geocode") w)
                  = @geocode_body E' (query, limit) (add_event (Called "geocode") w)
                  ∧ fst (@geocode_body E (query, limit) (add_event (Called "geocode") w))
                    = Ok (VList [])).
  { rewrite !geocode_body_unfold. simpl. rewrite Hans, Hans', Hraise. simpl.
    rewrite Hno. split; reflexivity. }
  destruct Hbody as [Hsame Hres]. split.
  - rewrite geocode_miss_result by exact Hmiss. exact Hres.
  - rewrite !geocode_unfold. simpl. rewrite Hsame. reflexivity.
Qed.



(** ** The search pipeline *)

Lemma new_events_app (w w' : world) (es : list event) :
  trace w' = (trace w ++ es)%list → new_events w w' = es.
Proof.
  intros E. unfold new_events. rewrite E. apply drop_app_length.
Qed.

(** C9: when the query is empty after trimming, a run of the script only
    shows the start hint: [geocode] is not invoked and no request is
    sent, whether or not the button was pressed. *)
Theorem blank_query_never_searches `{Env} (i : inputs) (w : world) :
  strip (q i) = EmptyString →
  ∃ w',
    script i w = (Ok tt, w')
    ∧ new_events w w' = [StInfo START_HINT]
    ∧ (Called "geocode" ∉ new_events w w')
    ∧ new_requests w w' = [].
Proof.
  intros Hblank. exists (add_event (StInfo START_HINT) w).
  assert (Hev : new_events w (add_event (StInfo START_HINT) w) = [StInfo START_HINT]).
  { apply new_events_app. reflexivity. }
  split; [ | split; [exact Hev | split]].
  - unfold script. rewrite Hblank. simpl. rewrite andb_false_r. reflexivity.
  - rewrite Hev. intros Hin. apply list_elem_of_singleton in Hin. discriminate.
  - apply new_requests_same. reflexivity.
Qed.

(** C3: a run whose geocoding returns no candidate ends with the warning,
    without invoking [fetch_forecast]: the run emits the spinner, the call
    of [geocode] and the warning, and whatever request it sends goes to
    the geocoding endpoint. *)
Theorem no_candidates_stops_before_forecast `{Env}
    (i : inputs) (w w1 : world) :
  search_btn i = true →
  strip (q i) ≠ EmptyString →
  geocode (q i) (max_results i) (add_event (StSpinner "위치 검색 중...") w)
    = (Ok (VList []), w1) →
  ∃ w',
    script i w = (Ok tt, w')
    ∧ new_events w w'
      = [StSpinner "위치 검색 중..."; Called "geocode"; StWarning NO_RESULTS]
    ∧ (Called "fetch_forecast" ∉ new_events w w')
    ∧ Forall (λ rq, req_url rq = GEOCODE_URL) (new_requests w w').
Proof.
  intros Hbtn Hq Hgeo. exists (add_event (StWarning NO_RESULTS) w1).
  pose proof (geocode_trace (q i) (max_results i)
                (add_event (StSpinner "위치 검색 중...") w)) as Htr.
  pose proof (geocode_sent (q i) (max_results i)
                (add_event (StSpinner "위치 검색 중...") w)) as Hse.
  rewrite Hgeo in Htr, Hse. simpl in Htr, Hse.
  assert (Hev : new_events w (add_event (StWarning NO_RESULTS) w1)
                = [StSpinner "위치 검색 중..."; Called "geocode"; StWarning NO_RESULTS]).
  { apply new_events_app. simpl. rewrite Htr. rewrite <- !app_assoc. reflexivity. }
  split; [ | split; [exact Hev | split]].
  - unfold script. rewrite Hbtn. simpl.
    destruct (strip (q i)) as [ | c s] eqn:Hs; [congruence | ]. simpl.
    unfold mbind, M_bind, emit at 1. rewrite Hgeo. reflexivity.
  - rewrite Hev. intros Hin.
    repeat (apply elem_of_cons in Hin as [Hin | Hin]; [discriminate | ]).
    inversion Hin.
  - unfold new_requests. simpl. rewrite Hse.
    destruct (in_window _ _ _ _).
    + rewrite drop_all. constructor.
    + rewrite drop_app_length. constructor; [reflexivity | constructor].
Qed.

(** ** Resolving the selection *)

(** [list.index] finds the first position of an element that occurs. *)
Lemma index_first (xs : list string) (x : string) (p : nat) :
  xs !! p = Some x →
  ∃ i, index x xs = Ok i
       ∧ (i ≤ p)%nat
       ∧ xs !! i = Some x
       ∧ ∀ j, (j < i)%nat → xs !! j ≠ Some x.
Proof.
  revert p. induction xs as [ | y ys IH]; intros p Hp; [destruct p; discriminate | ].
  simpl. destruct (String.eqb x y) eqn:Hxy.
  - apply String.eqb_eq in Hxy. subst y. exists 0%nat.
    repeat split; [lia | intros j Hj; lia].
  - apply String.eqb_neq in Hxy. destruct p as [ | p]; simpl in Hp.
    + congruence.
    + destruct (IH p Hp) as (i & Hi & Hle & Hat & Hmin).
      exists (S i). rewrite Hi. repeat split; [lia | exact Hat | ].
      intros [ | j] Hj; simpl; [congruence | apply Hmin; lia].
Qed.

(** Whichever listed name is picked, the selection reads the cells at the
    first index under which that name is listed. *)
Lemma resolve_selection_first `{Env} (rows : list row) (pick : nat) (sel : string) :
  map row_name rows !! pick = Some sel →
  ∃ idx : nat,
    (idx ≤ pick)%nat
    ∧ map row_name rows !! idx = Some sel
    ∧ (∀ j, (j < idx)%nat → map row_name rows !! j ≠ Some sel)
    ∧ resolve_selection rows pick
      = (lat_cell ← iloc (records_cells (map row_lat rows)) idx;
         lon_cell ← iloc (records_cells (map row_lon rows)) idx;
         tz_cell ← iloc (records_cells (map row_timezone rows)) idx;
         lat ← py_float float_of_str lat_cell;
         lon ← py_float float_of_str lon_cell;
         Ok (sel, (lat, lon, py_or tz_cell (VStr "UTC")))).
Proof.
  intros Hpick.
  destruct (index_first _ _ _ Hpick) as (idx & Hidx & Hle & Hat & Hmin).
  exists idx. repeat split; try assumption.
  unfold resolve_selection, st_radio. rewrite Hpick.
  unfold mbind at 1, result_bind at 1.
  unfold mbind at 1, result_bind at 1. rewrite Hidx. reflexivity.
Qed.

(** A column of [pd.DataFrame(rows)] has a cell at the index of every
    row. *)
Lemma iloc_records `{Env} {A} (f : row → value) (g : row → A)
    (rows : list row) (idx : nat) (a : A) :
  map g rows !! idx = Some a →
  ∃ cell, records_cells (map f rows) !! idx = Some cell
          ∧ iloc (records_cells (map f rows)) idx = Ok cell.
Proof.
  intros Hat. apply lookup_lt_Some in Hat. rewrite length_map in Hat.
  destruct (lookup_lt_is_Some_2 (records_cells (map f rows)) idx) as [cell Hcell].
  { rewrite records_cells_length, length_map. exact Hat. }
  exists cell. split; [exact Hcell | ]. unfold iloc. rewrite Hcell. reflexivity.
Qed.

(** C8: two candidates are listed under one name, the first without a
    timezone and the second with one.  Picking either entry resolves to
    the first candidate, with its coordinates.  Its timezone is absent,
    yet the selection does not resolve to ["UTC"]: beside the timezone of
    the second candidate pandas holds the missing one as NaN, which is
    truthy, so [or "UTC"] leaves it: the page shows the timezone as
    [nan] and the forecast request of the run carries NaN as its
    timezone. *)
Theorem absent_timezone_resolves_to_nan :
  let E := Demo.env Demo.twin_first in
  get Demo.seoul_twin "timezone" VNone = Ok VNone
  ∧ (∃ rows : list row,
       @build_rows E (VList [Demo.seoul_twin; Demo.seoul]) = Ok rows
       ∧ map row_name rows = [Demo.listed_name; Demo.listed_name]
       ∧ @resolve_selection E rows 0
         = Ok (Demo.listed_name,
               (Demo.lon_seoul, Demo.lat_seoul, VFloat S754_nan))
       ∧ @resolve_selection E rows 1
         = Ok (Demo.listed_name,
               (Demo.lon_seoul, Demo.lat_seoul, VFloat S754_nan)))
  ∧ VFloat S754_nan ≠ VStr "UTC"
  ∧ new_events Demo.start (snd (@script E (Demo.search "Seoul") Demo.start)) !! 4%nat
    = Some (StMarkdown "**선택:** Seoul, South Korea (Seoul) — 위도: 127.0000, 경도: 37.5000, timezone: nan")
  ∧ (∃ rq : request,
       new_requests Demo.start (snd (@script E (Demo.search "Seoul") Demo.start))
       = [geocode_request "Seoul" 5; rq]
       ∧ req_url rq = FORECAST_URL
       ∧ lookup_item "timezone" (req_params rq) = Some (VFloat S754_nan)).
Proof.
  split; [reflexivity | split; [ | split; [ | split]]].
  - eexists. split; [vm_compute; reflexivity | ].
    split; [vm_compute; reflexivity | ].
    split; vm_compute; reflexivity.
  - discriminate.
  - vm_compute; reflexivity.
  - eexists. split; [vm_compute; reflexivity | ].
    split; vm_compute; reflexivity.
Qed.

(** ** The current-conditions summary *)

(** [render_current] on a document that is an object, case by case on
    what it holds under [current_weather]. *)
Lemma render_current_cases `{Env} (items : list (string * value)) (w : world) :
  render_current (VDict items) w
  = match default (VDict []) (lookup_item "current_weather" items) with
    | VDict (f :: fs) =>
        (Ok tt,
         add_event (Col1 (StWrite ("관측 시간: " ++ py_str (field "time" (f :: fs)))))
           (add_event (Col1 (StWrite ("풍속: " ++ py_str (field "windspeed" (f :: fs))
                                      ++ " m/s, 바람방향: "
                                      ++ py_str (field "winddirection" (f :: fs)) ++ "°")))
              (add_event (Col1 (StMetric "현재 기온 (°C)"
                                  (py_str (field "temperature" (f :: fs)) ++ " °C"))) w)))
    | v => if truthy v then (Raise AttributeError, w)
           else (Ok tt, add_event (StWrite NO_CURRENT) w)
    end.
Proof.
  unfold render_current, mbind, M_bind, lift, emit. simpl.
  destruct (default (VDict []) (lookup_item "current_weather" items))
    as [ | b | n | x | s | xs | [ | f fs]]; simpl; try reflexivity.
  - destruct b; reflexivity.
  - destruct (n =? 0); reflexivity.
  - destruct (is_zero x); reflexivity.
  - destruct (String.eqb s EmptyString); reflexivity.
  - destruct xs; reflexivity.
Qed.

(** C7, amended: on a document whose [current_weather] is an optional
    object, the summary shows the temperature, the wind and the
    observation time exactly when that object is there and has fields; in
    every other case it writes the no-data notice.  Something is shown
    either way. *)
Theorem current_summary_or_notice `{Env} (items : list (string * value)) (w : world) :
  optional_object (lookup_item "current_weather" items) →
  ∃ w',
    render_current (VDict items) w = (Ok tt, w')
    ∧ new_events w w'
      = match lookup_item "current_weather" items with
        | Some (VDict (f :: fs)) =>
            [ Col1 (StMetric "현재 기온 (°C)"
                      (py_str (field "temperature" (f :: fs)) ++ " °C"));
              Col1 (StWrite ("풍속: " ++ py_str (field "windspeed" (f :: fs))
                             ++ " m/s, 바람방향: "
                             ++ py_str (field "winddirection" (f :: fs)) ++ "°"));
              Col1 (StWrite ("관측 시간: " ++ py_str (field "time" (f :: fs)))) ]
        | _ => [ StWrite NO_CURRENT ]
        end.
Proof.
  intros Hopt. rewrite render_current_cases.
  destruct (lookup_item "current_weather" items)
    as [[ | b | n | x | s | xs | [ | f fs]] | ]; simpl in *; try contradiction.
  - eexists. split; [reflexivity | ]. apply new_events_app. reflexivity.
  - eexists. split; [reflexivity | ]. apply new_events_app. reflexivity.
  - eexists. split; [reflexivity | ]. apply new_events_app. simpl.
    rewrite <- !app_assoc. reflexivity.
  - eexists. split; [reflexivity | ]. apply new_events_app. reflexivity.
Qed.

(** ** Frames *)

Lemma trace_add_events (es : list event) (w : world) :
  trace (add_events es w) = (trace w ++ es)%list.
Proof.
  revert w. induction es as [ | e es IH]; intros w; simpl.
  - rewrite app_nil_r. reflexivity.
  - unfold add_events in *. simpl. rewrite IH. simpl.
    rewrite <- app_assoc. reflexivity.
Qed.

Lemma as_columns_block (cols : list (string * list value)) :
  Pandas.as_columns (map (λ c, (fst c, VList (snd c))) cols) = Some cols.
Proof.
  induction cols as [ | [c xs] cols IH]; [reflexivity | ].
  simpl. rewrite IH. reflexivity.
Qed.

Lemma same_lengths_parallel (cols : list (string * list value)) (n : nat) :
  Forall (λ c, length (snd c) = n) cols → Pandas.same_lengths cols = true.
Proof.
  intros Hall. destruct cols as [ | [c xs] cols]; [reflexivity | ].
  simpl. inversion Hall as [ | ? ? Hx Hrest]; subst. simpl in *.
  apply forallb_forall. intros c' Hin.
  rewrite Forall_forall in Hrest. apply list_elem_of_In in Hin.
  rewrite (Hrest _ Hin). apply Nat.eqb_refl.
Qed.

Lemma find_column_elem {A} (c : string) (cols : list (string * A)) (xs : A) :
  Pandas.find_column c cols = Some xs → (c, xs) ∈ cols.
Proof.
  induction cols as [ | [c' ys] cols IH]; simpl; [discriminate | ].
  destruct (String.eqb c c') eqn:Hc.
  - apply String.eqb_eq in Hc. subst c'. intros [= ->]. apply list_elem_of_here.
  - intros Hf. apply list_elem_of_further, IH, Hf.
Qed.

(** Arrays of one common length are parallel. *)
Lemma parallel_of_lengths (cols : list (string * list value)) (n : nat) :
  Forall (λ c, length (snd c) = n) cols →
  ∀ c c', c ∈ cols → c' ∈ cols → length (snd c) = length (snd c').
Proof.
  intros Hall c c' Hc Hc'. rewrite Forall_forall in Hall.
  rewrite (Hall _ Hc), (Hall _ Hc'). reflexivity.
Qed.

(** In a time series every array is as long as the list of timestamps. *)
Lemma time_series_lengths `{Env} block cols ts :
  Pandas.time_series block cols ts →
  Forall (λ c, length (snd c) = length ts) cols.
Proof.
  intros [_ Hp Ht]. destruct cols as [ | col cols']; [constructor | ].
  destruct Ht as (t & Hfind & Hdt); [discriminate | ].
  apply find_column_elem in Hfind. apply to_datetime_length in Hdt.
  rewrite array_cells_length in Hdt.
  apply Forall_forall. intros c Hc.
  rewrite (Hp _ _ Hc Hfind). simpl. symmetry. exact Hdt.
Qed.


Lemma frame_of_arrays_names `{Env} (cols : list (string * list value)) :
  map fst (Pandas.frame_of_arrays cols) = map fst cols.
Proof.
  unfold Pandas.frame_of_arrays.
  induction cols as [ | [c xs] cols IH]; [reflexivity | ].
  simpl. rewrite IH. reflexivity.
Qed.

Lemma find_column_frame_of_arrays `{Env} (c : string) cols :
  Pandas.find_column c (Pandas.frame_of_arrays cols)
  = array_cells <$> Pandas.find_column c cols.
Proof.
  unfold Pandas.frame_of_arrays.
  induction cols as [ | [c' xs] cols IH]; [reflexivity | ].
  simpl. destruct (String.eqb c c'); [reflexivity | exact IH].
Qed.


Lemma assign_time_names (cols : list (string * list value)) (ts : list timestamp) :
  map fst (Pandas.assign_time cols ts) = map fst cols.
Proof.
  unfold Pandas.assign_time. induction cols as [ | [c xs] cols IH]; [reflexivity | ].
  simpl. rewrite IH. destruct (String.eqb c "time"); reflexivity.
Qed.

Lemma find_column_assign_time (c : string) cols (ts : list timestamp) :
  Pandas.find_column c (Pandas.assign_time cols ts)
  = (λ xs, if String.eqb c "time" then map CTime ts else map CVal xs)
      <$> Pandas.find_column c cols.
Proof.
  unfold Pandas.assign_time. induction cols as [ | [c' xs] cols IH]; [reflexivity | ].
  simpl. destruct (String.eqb c c') eqn:Hc.
  - apply String.eqb_eq in Hc. subst c'.
    destruct (String.eqb c "time"); simpl; rewrite String.eqb_refl; reflexivity.
  - destruct (String.eqb c' "time"); simpl; rewrite Hc; exact IH.
Qed.

Lemma find_column_Some {A} (c : string) (cols : list (string * A)) :
  is_Some (Pandas.find_column c cols) ↔ c ∈ map fst cols.
Proof.
  induction cols as [ | [c' xs] cols IH]; simpl.
  - split; [intros [? [=]] | intros Hin; inversion Hin].
  - destruct (String.eqb c c') eqn:Hc.
    + apply String.eqb_eq in Hc. subst c'.
      split; [intros _; apply list_elem_of_here | eauto].
    + apply String.eqb_neq in Hc. rewrite IH, elem_of_cons.
      split; [auto | intros [? | ?]; [congruence | assumption]].
Qed.

Lemma find_column_None {A} (c : string) (cols : list (string * A)) :
  Pandas.find_column c cols = None ↔ c ∉ map fst cols.
Proof.
  rewrite <- find_column_Some, eq_None_not_Some. reflexivity.
Qed.

Lemma charts_of_pyplots (figs : list figure) :
  charts_of (map StPyplot figs) = figs.
Proof.
  induction figs as [ | fig figs IH]; [reflexivity | ].
  simpl. unfold charts_of in *. simpl. rewrite IH. reflexivity.
Qed.

(** ** Hourly charts *)

(** The figures the loop draws for a selection, given the frame, when
    every chart it comes to can be drawn. *)
Lemma for_each_plot `{Env} (df : frame) (x : list cell)
    (hourly_options : list string) (w : world) :
  Pandas.find_column "time" df = Some x →
  (∀ var y, var ∈ hourly_options → Pandas.find_column var df = Some y →
            draw_error var x y = None) →
  for_each (plot_if_present df) hourly_options w
  = (Ok tt,
     add_events
       (map StPyplot
          (omap (λ var, line_chart var x <$> Pandas.find_column var df)
             hourly_options)) w).
Proof.
  intros Hx. revert w.
  induction hourly_options as [ | var vars IH]; intros w Hdraw; [reflexivity | ].
  assert (Hrest : ∀ var' y, var' ∈ vars → Pandas.find_column var' df = Some y →
                            draw_error var' x y = None).
  { intros var' y Hin. apply Hdraw, list_elem_of_further, Hin. }
  simpl. unfold mbind at 1, M_bind at 1. unfold plot_if_present at 1.
  destruct (Pandas.find_column var df) as [y | ] eqn:Hy; simpl.
  - unfold Pandas.column. rewrite Hx. unfold mbind at 1, M_bind at 1, lift at 1.
    rewrite (Hdraw var y (list_elem_of_here _ _) Hy). unfold emit.
    rewrite (IH _ Hrest). reflexivity.
  - unfold mret, M_ret. rewrite (IH _ Hrest). reflexivity.
Qed.

Lemma chart_titles (df : frame) (x : list cell) (hourly_options : list string) :
  map fig_title
    (omap (λ var, line_chart var x <$> Pandas.find_column var df) hourly_options)
  = filter (λ var, var ∈ map fst df) hourly_options.
Proof.
  induction hourly_options as [ | var vars IH]; [reflexivity | ].
  rewrite filter_cons. simpl.
  destruct (Pandas.find_column var df) as [y | ] eqn:Hy; simpl.
  - rewrite decide_True by (apply find_column_Some; eauto).
    f_equal. exact IH.
  - rewrite decide_False by (apply find_column_None; exact Hy).
    exact IH.
Qed.

Lemma chart_data (df : frame) (x : list cell) (hourly_options : list string) :
  Forall (λ fig, fig_x fig = x
                 ∧ Pandas.find_column (fig_title fig) df = Some (fig_y fig))
    (omap (λ var, line_chart var x <$> Pandas.find_column var df) hourly_options).
Proof.
  induction hourly_options as [ | var vars IH]; [constructor | ].
  simpl. destruct (Pandas.find_column var df) as [y | ] eqn:Hy; simpl.
  - constructor; [split; [reflexivity | exact Hy] | exact IH].
  - exact IH.
Qed.

Lemma block_of_truthy (cols : list (string * list value)) :
  truthy (Pandas.block_of cols) = nonempty cols.
Proof. destruct cols; reflexivity. Qed.

(** The figures drawn for a selection over the columns [cols]. *)
Lemma charts_absent (df : frame) (x : list cell) (hourly_options : list string) :
  (∀ var, var ∈ hourly_options → var ∉ map fst df) →
  omap (λ var, line_chart var x <$> Pandas.find_column var df) hourly_options = [].
Proof.
  induction hourly_options as [ | v vs IH]; intros Hvs; [reflexivity | ].
  simpl. assert (Hv : Pandas.find_column v df = None).
  { apply find_column_None, Hvs, list_elem_of_here. }
  rewrite Hv. simpl. apply IH. intros var Hin.
  apply Hvs, list_elem_of_further, Hin.
Qed.

(** The column the frame of an hourly or daily block holds under [c],
    given the array [xs] of the block: the timestamps for [time], and
    otherwise the cells pandas makes of the array. *)
Lemma find_column_frame `{Env} (c : string) cols (ts : list timestamp) :
  Pandas.find_column c (Pandas.assign_time (Pandas.frame_of_arrays cols) ts)
  = (λ xs, if String.eqb c "time" then map CTime ts
           else map CVal (array_cells xs))
      <$> Pandas.find_column c cols.
Proof.
  rewrite find_column_assign_time, find_column_frame_of_arrays.
  destruct (Pandas.find_column c cols); reflexivity.
Qed.

(** One run of the hourly step on a time series whose selected columns
    can be drawn: no error, and the charts drawn are those of the
    selected variables found in the frame. *)
Lemma render_hourly_run `{Env}
    (items : list (string * value)) (hourly_options : list string)
    (cols : list (string * list value)) (ts : list timestamp) (w : world) :
  Pandas.time_series (default (VDict []) (lookup_item "hourly" items)) cols ts →
  (∀ var y, var ∈ hourly_options →
     Pandas.find_column var (Pandas.assign_time (Pandas.frame_of_arrays cols) ts)
     = Some y →
     draw_error var (map CTime ts) y = None) →
  ∃ w',
    render_hourly (VDict items) hourly_options w = (Ok tt, w')
    ∧ charts_of (new_events w w')
      = omap (λ var, line_chart var (map CTime ts)
                       <$> Pandas.find_column var
                             (Pandas.assign_time (Pandas.frame_of_arrays cols) ts))
          hourly_options.
Proof.
  intros Hts Hdraw.
  pose proof (Pandas.ts_block _ _ _ Hts) as Hblock.
  destruct (nonempty cols && nonempty hourly_options) eqn:Hq.
  - apply andb_prop in Hq as [Hc Ho].
    destruct (Pandas.ts_time _ _ _ Hts) as (t & Ht & Hdt).
    { intros ->. discriminate. }
    assert (Hx : Pandas.find_column "time"
                   (Pandas.assign_time (Pandas.frame_of_arrays cols) ts)
                 = Some (map CTime ts)).
    { rewrite find_column_frame, Ht. reflexivity. }
    eexists. split.
    + unfold render_hourly, mbind at 1, M_bind at 1, lift at 1. simpl.
      rewrite Hblock, block_of_truthy, Hc, Ho. simpl.
      unfold mbind at 1, M_bind at 1, lift at 1.
      rewrite as_columns_block,
        (same_lengths_parallel _ _ (time_series_lengths _ _ _ Hts)).
      unfold mbind at 1, M_bind at 1, lift at 1.
      unfold Pandas.column. rewrite find_column_frame_of_arrays, Ht. simpl.
      unfold mbind at 1, M_bind at 1, lift at 1.
      unfold Pandas.pd_to_datetime. rewrite Hdt.
      unfold mbind at 1, M_bind at 1, emit at 1.
      rewrite (for_each_plot _ _ _ _ Hx Hdraw). reflexivity.
    + erewrite new_events_app; [ | rewrite trace_add_events; simpl;
                                     rewrite <- app_assoc; reflexivity].
      simpl. unfold charts_of. simpl. apply charts_of_pyplots.
  - exists w. split.
    + unfold render_hourly, mbind, M_bind, lift. simpl.
      rewrite Hblock, block_of_truthy, Hq. reflexivity.
    + unfold new_events. rewrite drop_all. simpl. symmetry.
      apply andb_false_iff in Hq as [Hc | Ho].
      * destruct cols; [ | discriminate]. apply charts_absent.
        intros var _ Hin. inversion Hin.
      * destruct hourly_options; [reflexivity | discriminate].
Qed.

(** C5, amended: on a document whose hourly block is a time series (or is
    missing or empty) and whose selected columns matplotlib can draw
    against the times, the hourly step raises nothing and draws one chart
    per selected variable that is a column of the block, in the order of
    the selection, each of the cells pandas holds for that column against
    the time column; a selected variable that is not a column is skipped,
    so a selection without any column of the block draws no chart. *)
Theorem hourly_charts_follow_selection `{Env}
    (items : list (string * value)) (hourly_options : list string)
    (cols : list (string * list value)) (ts : list timestamp) (w : world) :
  Pandas.time_series (default (VDict []) (lookup_item "hourly" items)) cols ts →
  (∀ var xs, var ∈ hourly_options → Pandas.find_column var cols = Some xs →
     draw_error var (map CTime ts)
       (if String.eqb var "time" then map CTime ts
        else map CVal (array_cells xs)) = None) →
  ∃ w',
    render_hourly (VDict items) hourly_options w = (Ok tt, w')
    ∧ map fig_title (charts_of (new_events w w'))
      = filter (λ var, var ∈ map fst cols) hourly_options
    ∧ Forall (λ fig,
          fig_x fig = map CTime ts
          ∧ ∃ xs, Pandas.find_column (fig_title fig) cols = Some xs
                  ∧ fig_y fig = if String.eqb (fig_title fig) "time"
                                then map CTime ts
                                else map CVal (array_cells xs))
        (charts_of (new_events w w'))
    ∧ ((∀ var, var ∈ hourly_options → var ∉ map fst cols) →
       charts_of (new_events w w') = []).
Proof.
  intros Hts Hdraw.
  destruct (render_hourly_run items hourly_options cols ts w Hts)
    as (w' & Hrun & Hcharts).
  { intros var y Hin. rewrite find_column_frame.
    destruct (Pandas.find_column var cols) as [xs | ] eqn:Hxs; [ | discriminate].
    simpl. intros [= <-]. exact (Hdraw var xs Hin Hxs). }
  exists w'. rewrite Hcharts. split; [exact Hrun | split; [ | split]].
  - rewrite chart_titles, assign_time_names, frame_of_arrays_names. reflexivity.
  - eapply Forall_impl; [apply chart_data | ].
    intros fig [Hfx Hfy]. split; [exact Hfx | ].
    rewrite find_column_frame in Hfy.
    destruct (Pandas.find_column (fig_title fig) cols) as [xs | ]; [ | discriminate].
    simpl in Hfy. injection Hfy as <-. eauto.
  - intros Habsent. apply charts_absent.
    rewrite assign_time_names, frame_of_arrays_names. exact Habsent.
Qed.

(** ** Daily table *)




(** * Worked examples

    Each theorem above that has premises is applied here to a concrete run
    against the example services. *)

(** A first fetch from the empty store sends one request; it has [hourly]
    and [daily] as selected, and no [hourly] at all without a selection. *)
Example fetch_forecast_request_example :
  new_requests Demo.start Demo.fetched
  = [ {| req_url := FORECAST_URL;
         req_params :=
           [("latitude", VFloat Demo.lat_seoul);
            ("longitude", VFloat Demo.lon_seoul);
            ("hourly", VStr "temperature_2m");
            ("daily", VStr "temperature_2m_max");
            ("current_weather", VStr "true");
            ("forecast_days", VInt 7);
            ("timezone", VStr "Asia/Seoul")] |} ]
  ∧ keys (forecast_params
            {| fa_lat := Demo.lat_seoul; fa_lon := Demo.lon_seoul;
               fa_tz := VStr "UTC"; fa_hourly := [];
               fa_daily := ["weathercode"; "precipitation_sum"]; fa_days := 3 |})
    = ["latitude"; "longitude"; "daily"; "current_weather";
       "forecast_days"; "timezone"].
Proof. split; vm_compute; reflexivity. Qed.

Lemma fetch_forecast_twice_in_window_witness :
  now Demo.start ≤ 599
  ∧ in_window forecast_args_same Demo.seoul_args
      (forecast_cache Demo.fetched) 599 = true
  ∧ ∃ v w2,
      fst (@fetch_forecast (Demo.env Demo.honest) Demo.lat_seoul Demo.lon_seoul
             (VStr "Asia/Seoul") ["temperature_2m"] ["temperature_2m_max"] 7
             Demo.start)
      = Ok v
      ∧ @fetch_forecast (Demo.env Demo.honest) Demo.lat_seoul Demo.lon_seoul
          (VStr "Asia/Seoul") ["temperature_2m"] ["temperature_2m_max"] 7
          (set_now 599 Demo.fetched)
        = (Ok v, w2)
      ∧ new_requests Demo.fetched w2 = []
      ∧ (length (new_requests Demo.start w2) ≤ 1)%nat.
Proof.
  split; [vm_compute; discriminate | ].
  split; [vm_compute; reflexivity | ].
  apply (@fetch_forecast_twice_in_window (Demo.env Demo.honest)
           Demo.lat_seoul Demo.lon_seoul (VStr "Asia/Seoul")
           ["temperature_2m"] ["temperature_2m_max"] 7 Demo.start 599).
  - vm_compute; discriminate.
  - vm_compute; reflexivity.
Defined.

(** The first fetch returned the document and sent the one request of the
    two calls. *)
Example fetch_forecast_twice_example :
  fst (@fetch_forecast (Demo.env Demo.honest) Demo.lat_seoul Demo.lon_seoul
         (VStr "Asia/Seoul") ["temperature_2m"] ["temperature_2m_max"] 7 Demo.start)
  = Ok Demo.forecast
  ∧ length (sent Demo.fetched) = 1%nat
  ∧ sent (snd (@fetch_forecast (Demo.env Demo.honest) Demo.lat_seoul Demo.lon_seoul
                 (VStr "Asia/Seoul") ["temperature_2m"] ["temperature_2m_max"] 7
                 (set_now 599 Demo.fetched)))
    = sent Demo.fetched.
Proof. repeat split; vm_compute; reflexivity. Qed.

(** The window closes ten minutes after the entry was stored, and a call
    that raised has stored nothing. *)
Example fetch_forecast_window_example :
  in_window forecast_args_same Demo.seoul_args (forecast_cache Demo.fetched) 600
  = false
  ∧ forecast_cache
      (snd (@fetch_forecast (Demo.env (λ _ _, Response 503 None))
              Demo.lat_seoul Demo.lon_seoul (VStr "Asia/Seoul")
              ["temperature_2m"] ["temperature_2m_max"] 7 Demo.start))
    = [].
Proof. split; vm_compute; reflexivity. Qed.

Lemma no_candidates_stops_before_forecast_witness :
  search_btn (Demo.search "Atlantis") = true
  ∧ strip (q (Demo.search "Atlantis")) ≠ EmptyString
  ∧ @geocode (Demo.env Demo.nothing_found) "Atlantis" 5
      (add_event (StSpinner "위치 검색 중...") Demo.start)
    = (Ok (VList []), Demo.searched Demo.nothing_found "Atlantis" 5)
  ∧ ∃ w',
      @script (Demo.env Demo.nothing_found) (Demo.search "Atlantis") Demo.start
      = (Ok tt, w')
      ∧ new_events Demo.start w'
        = [StSpinner "위치 검색 중..."; Called "geocode"; StWarning NO_RESULTS]
      ∧ (Called "fetch_forecast" ∉ new_events Demo.start w')
      ∧ Forall (λ rq, req_url rq = GEOCODE_URL) (new_requests Demo.start w').
Proof.
  split; [reflexivity | ].
  split; [vm_compute; discriminate | ].
  split; [vm_compute; reflexivity | ].
  apply (@no_candidates_stops_before_forecast (Demo.env Demo.nothing_found)
           (Demo.search "Atlantis") Demo.start
           (Demo.searched Demo.nothing_found "Atlantis" 5)).
  - reflexivity.
  - vm_compute; discriminate.
  - vm_compute; reflexivity.
Defined.

Lemma blank_query_never_searches_witness :
  strip (q Demo.blank) = EmptyString
  ∧ ∃ w',
      @script (Demo.env Demo.honest) Demo.blank Demo.start = (Ok tt, w')
      ∧ new_events Demo.start w' = [StInfo START_HINT]
      ∧ (Called "geocode" ∉ new_events Demo.start w')
      ∧ new_requests Demo.start w' = [].
Proof.
  split; [reflexivity | ].
  apply (@blank_query_never_searches (Demo.env Demo.honest) Demo.blank Demo.start).
  reflexivity.
Defined.




Lemma geocode_missing_results_is_empty_witness :
  in_window geocode_key_same ("Seoul", 5) (geocode_cache Demo.start) (now Demo.start)
  = false
  ∧ Demo.no_results_key (length (sent Demo.start)) (geocode_request "Seoul" 5)
    = Response 200 (Some (VDict [("generationtime_ms", VInt 1)]))
  ∧ 200 ≤ 200 < 300
  ∧ lookup_item "results" [("generationtime_ms", VInt 1)] = None
  ∧ Demo.empty_results (length (sent Demo.start)) (geocode_request "Seoul" 5)
    = Response 200
        (Some (VDict (("results", VList []) :: [("generationtime_ms", VInt 1)])))
  ∧ fst (@geocode (Demo.env Demo.no_results_key) "Seoul" 5 Demo.start)
    = Ok (VList [])
  ∧ @geocode (Demo.env Demo.no_results_key) "Seoul" 5 Demo.start
    = @geocode (Demo.env Demo.empty_results) "Seoul" 5 Demo.start.
Proof.
  split; [reflexivity | ].
  split; [reflexivity | ].
  split; [lia | ].
  split; [reflexivity | ].
  split; [reflexivity | ].
  apply (@geocode_missing_results_is_empty
           (Demo.env Demo.no_results_key) (Demo.env Demo.empty_results)
           "Seoul" 5 Demo.start 200 [("generationtime_ms", VInt 1)]).
  - reflexivity.
  - reflexivity.
  - lia.
  - reflexivity.
  - reflexivity.
Defined.

(** C10, as stated, fails: a 2xx answer whose body is valid JSON without
    a [results] key, here the empty array, makes [geocode] raise, since
    only an object has [get]. *)
Lemma geocode_array_body_raises :
  Demo.array_body (length (sent Demo.start)) (geocode_request "Seoul" 5)
  = Response 200 (Some (VList []))
  ∧ fst (@geocode (Demo.env Demo.array_body) "Seoul" 5 Demo.start)
    = Raise AttributeError
  ∧ fst (@geocode (Demo.env Demo.array_body) "Seoul" 5 Demo.start)
    ≠ Ok (VList []).
Proof.
  split; [reflexivity | ].
  split; [vm_compute; reflexivity | vm_compute; discriminate].
Qed.

(** Picking the second of two places listed under one name resolves to
    the first; picking the only place of a list, which has no timezone,
    resolves to UTC. *)
Example selection_example :
  @resolve_selection (Demo.env Demo.greedy) Demo.rows 1
  = Ok (Demo.listed_name, (Demo.lat_seoul, Demo.lon_seoul, VStr "Asia/Seoul"))
  ∧ @resolve_selection (Demo.env Demo.greedy) (drop 1 Demo.rows) 0
    = Ok (Demo.listed_name, (Demo.lon_seoul, Demo.lat_seoul, VStr "UTC")).
Proof. split; vm_compute; reflexivity. Qed.

Lemma current_summary_or_notice_witness :
  optional_object (lookup_item "current_weather" Demo.forecast_items)
  ∧ ∃ w',
      @render_current (Demo.env Demo.honest) Demo.forecast Demo.start = (Ok tt, w')
      ∧ new_events Demo.start w'
        = [ Col1 (StMetric "현재 기온 (°C)" "21 °C");
            Col1 (StWrite "풍속: 3 m/s, 바람방향: 270°");
            Col1 (StWrite "관측 시간: 2024-01-01T00:00") ].
Proof.
  split; [exact I | ].
  exact (@current_summary_or_notice (Demo.env Demo.honest)
           Demo.forecast_items Demo.start I).
Defined.

(** C7, as stated, fails: a document that has a [current_weather] block,
    an empty one, gets the notice instead of the summary; and when
    [current_weather] is a number, neither is shown, the step raises. *)
Lemma current_block_empty_or_scalar :
  lookup_item "current_weather" [("current_weather", VDict [])] = Some (VDict [])
  ∧ new_events Demo.start
      (snd (@render_current (Demo.env Demo.honest)
              (VDict [("current_weather", VDict [])]) Demo.start))
    = [StWrite NO_CURRENT]
  ∧ @render_current (Demo.env Demo.honest)
      (VDict [("current_weather", VInt 5)]) Demo.start
    = (Raise AttributeError, Demo.start).
Proof. repeat split; vm_compute; reflexivity. Qed.

(** Without [current_weather] the notice is written. *)
Example current_notice_example :
  new_events Demo.start
    (snd (@render_current (Demo.env Demo.honest) (VDict []) Demo.start))
  = [StWrite NO_CURRENT].
Proof. vm_compute; reflexivity. Qed.

Lemma demo_hourly_series :
  @Pandas.time_series (Demo.env Demo.honest)
    (default (VDict []) (lookup_item "hourly" Demo.forecast_items))
    Demo.hourly_cols [0; 3600000000000].
Proof.
  constructor.
  - reflexivity.
  - apply (parallel_of_lengths _ 2). repeat constructor.
  - intros _. exists [VInt 0; VInt 3600000000000]. split; reflexivity.
Defined.


Lemma demo_hourly_drawn (var : string) (xs : list value) :
  var ∈ ["temperature_2m"; "weathercode"] →
  Pandas.find_column var Demo.hourly_cols = Some xs →
  @draw_error (Demo.env Demo.honest) var (map CTime [0; 3600000000000])
    (if String.eqb var "time" then map CTime [0; 3600000000000]
     else map CVal (@array_cells (Demo.env Demo.honest) xs)) = None.
Proof.
  intros Hin Hxs.
  apply elem_of_cons in Hin as [-> | Hin].
  - vm_compute in Hxs. injection Hxs as <-. reflexivity.
  - apply list_elem_of_singleton in Hin. subst var. discriminate.
Defined.

Lemma hourly_charts_follow_selection_witness :
  @Pandas.time_series (Demo.env Demo.honest)
    (default (VDict []) (lookup_item "hourly" Demo.forecast_items))
    Demo.hourly_cols [0; 3600000000000]
  ∧ (∀ var xs, var ∈ ["temperature_2m"; "weathercode"] →
       Pandas.find_column var Demo.hourly_cols = Some xs →
       @draw_error (Demo.env Demo.honest) var (map CTime [0; 3600000000000])
         (if String.eqb var "time" then map CTime [0; 3600000000000]
          else map CVal (@array_cells (Demo.env Demo.honest) xs)) = None)
  ∧ ∃ w',
      @render_hourly (Demo.env Demo.honest) Demo.forecast
        ["temperature_2m"; "weathercode"] Demo.start = (Ok tt, w')
      ∧ map fig_title (charts_of (new_events Demo.start w'))
        = filter (λ var, var ∈ map fst Demo.hourly_cols)
            ["temperature_2m"; "weathercode"]
      ∧ Forall (λ fig,
            fig_x fig = map CTime [0; 3600000000000]
            ∧ ∃ xs, Pandas.find_column (fig_title fig) Demo.hourly_cols = Some xs
                    ∧ fig_y fig = if String.eqb (fig_title fig) "time"
                                  then map CTime [0; 3600000000000]
                                  else map CVal
                                         (@array_cells (Demo.env Demo.honest) xs))
          (charts_of (new_events Demo.start w'))
      ∧ ((∀ var, var ∈ ["temperature_2m"; "weathercode"] →
                 var ∉ map fst Demo.hourly_cols) →
         charts_of (new_events Demo.start w') = []).
Proof.
  split; [exact demo_hourly_series | ].
  split; [exact demo_hourly_drawn | ].
  exact (@hourly_charts_follow_selection (Demo.env Demo.honest)
           Demo.forecast_items ["temperature_2m"; "weathercode"]
           Demo.hourly_cols [0; 3600000000000] Demo.start
           demo_hourly_series demo_hourly_drawn).
Defined.

(** C5, as stated, fails: on a document whose hourly block has no [time]
    array the hourly step raises [KeyError], also when no selected
    variable is in the block; arrays of different lengths, or times that
    are no timestamps, raise [ValueError]. *)
Lemma hourly_charts_raise_without_time :
  (∀ var, var ∈ ["weathercode"] → var ∉ ["temperature_2m"])
  ∧ @render_hourly (Demo.env Demo.honest) Demo.forecast_without_time
      ["weathercode"] Demo.start
    = (Raise (KeyError "time"), Demo.start)
  ∧ @render_hourly (Demo.env Demo.honest) Demo.forecast_ragged
      ["weathercode"] Demo.start
    = (Raise ValueError, Demo.start)
  ∧ @render_hourly (Demo.env Demo.honest) Demo.forecast_bad_time
      ["weathercode"] Demo.start
    = (Raise ValueError, Demo.start).
Proof.
  split; [ | repeat split; vm_compute; reflexivity].
  intros var Hvar Habs.
  apply list_elem_of_singleton in Hvar. apply list_elem_of_singleton in Habs.
  subst var. discriminate.
Qed.

(** A block of the right shape can still hold a column matplotlib refuses:
    a temperature array that starts with a string and goes on with a
    number raises [TypeError] after the heading, and no chart is shown. *)
Example hourly_chart_refused_example :
  @render_hourly (Demo.env Demo.honest) Demo.forecast_mixed
    ["temperature_2m"] Demo.start
  = (Raise TypeError, add_event (StSubheader "시간별 데이터") Demo.start).
Proof. vm_compute; reflexivity. Qed.

(** Of two selected variables the one in the block is drawn; a selection
    that is not in the block draws nothing and raises nothing. *)
Example hourly_charts_example :
  charts_of (new_events Demo.start
               (snd (@render_hourly (Demo.env Demo.honest) Demo.forecast
                       ["temperature_2m"; "weathercode"] Demo.start)))
  = [ line_chart "temperature_2m"
        [CTime 0; CTime 3600000000000] [CVal (VInt 21); CVal (VInt 22)] ]
  ∧ @render_hourly (Demo.env Demo.honest) Demo.forecast ["weathercode"] Demo.start
    = (Ok tt, add_event (StSubheader "시간별 데이터") Demo.start).
Proof. repeat split; vm_compute; reflexivity. Qed.


(** The table for the default selection: [time], then the two selected
    columns the block has, rows as in the block. *)
Example daily_table_example :
  new_events Demo.start
    (snd (@render_daily (Demo.env Demo.honest) Demo.forecast
            (daily_options (Demo.search "Seoul")) Demo.start))
  = [ StSubheader "일별 요약";
      StDataframe
        [ ("time", [CTime 0; CTime Demo.day]);
          ("temperature_2m_max", [CVal (VInt 25); CVal (VInt 27)]);
          ("precipitation_sum", [CVal (VInt 0); CVal (VInt 3)]) ] ].
Proof. vm_compute; reflexivity. Qed.


(** * Further properties of the script *)

(** ** Caching and failures of the two clients *)

Lemma fetch_forecast_body_unfold `{Env} (a : forecast_args) (w : world) :
  fetch_forecast_body a w
  = (match service (length (sent w)) (forecast_request a) with
     | NoResponse why => Raise (failure_exn why)
     | Response status body =>
         if (400 <=? status) && (status <? 600) then Raise (HTTPError status)
         else match body with
              | None => Raise JSONDecodeError
              | Some j => Ok j
              end
     end,
     add_sent (forecast_request a) w).
Proof.
  unfold fetch_forecast_body, mbind, M_bind, requests_get, lift, forecast_request.
  destruct (service _ _) as [ | status body]; [reflexivity | ].
  unfold raise_for_status, json. simpl.
  destruct ((400 <=? status) && (status <? 600)); [reflexivity | ].
  destruct body as [j | ]; reflexivity.
Qed.

Lemma fetch_forecast_unfold `{Env} lat lon tz hv dv ds (w : world) :
  let a := {| fa_lat := lat; fa_lon := lon; fa_tz := tz;
              fa_hourly := hv; fa_daily := dv; fa_days := ds |} in
  let w1 := add_event (Called "fetch_forecast") w in
  fetch_forecast lat lon tz hv dv ds w
  = match cache_find forecast_args_same a (forecast_cache w) with
    | Some (v, expires) =>
        if now w <? expires then (Ok v, w1)
        else match fetch_forecast_body a w1 with
             | (Ok v', w') =>
                 (Ok v', set_forecast_cache
                           ((a, (v', now w' + 60 * 10)) :: forecast_cache w') w')
             | (Raise e, w') => (Raise e, w')
             end
    | None =>
        match fetch_forecast_body a w1 with
        | (Ok v', w') =>
            (Ok v', set_forecast_cache
                      ((a, (v', now w' + 60 * 10)) :: forecast_cache w') w')
        | (Raise e, w') => (Raise e, w')
        end
    end.
Proof. reflexivity. Qed.

(** X2: a call of [fetch_forecast] that raised has stored nothing: the next
    call with the same arguments, at that time or later, sends a request
    of its own. *)
Theorem fetch_forecast_failure_not_cached `{Env} lat lon tz hv dv ds
    (w0 w1 : world) (e : exn) (t : Z) :
  fetch_forecast lat lon tz hv dv ds w0 = (Raise e, w1) →
  now w0 ≤ t →
  new_requests w1 (snd (fetch_forecast lat lon tz hv dv ds (set_now t w1)))
  = [forecast_request
       {| fa_lat := lat; fa_lon := lon; fa_tz := tz;
          fa_hourly := hv; fa_daily := dv; fa_days := ds |}].
Proof.
  intros Hfirst Hlater.
  pose proof (fetch_forecast_raise_stores_nothing _ _ _ _ _ _ _ _ _ Hfirst) as Hsame.
  pose proof (fetch_forecast_raise_was_miss _ _ _ _ _ _ _ _ _ Hfirst) as Hmiss.
  apply new_requests_one.
  rewrite (fetch_forecast_sent lat lon tz hv dv ds (set_now t w1)). simpl.
  rewrite Hsame.
  destruct (in_window _ _ (forecast_cache w0) t) eqn:Hwin; [ | reflexivity].
  apply (in_window_later _ _ _ _ _ Hlater) in Hwin. congruence.
Qed.

Lemma fetch_forecast_failure_not_cached_witness :
  @fetch_forecast (Demo.env Demo.down) Demo.lat_seoul Demo.lon_seoul
    (VStr "Asia/Seoul") ["temperature_2m"] ["temperature_2m_max"] 7 Demo.start
  = (Raise (HTTPError 503),
     snd (@fetch_forecast (Demo.env Demo.down) Demo.lat_seoul Demo.lon_seoul
            (VStr "Asia/Seoul") ["temperature_2m"] ["temperature_2m_max"] 7
            Demo.start))
  ∧ now Demo.start ≤ 1
  ∧ new_requests
      (snd (@fetch_forecast (Demo.env Demo.down) Demo.lat_seoul Demo.lon_seoul
              (VStr "Asia/Seoul") ["temperature_2m"] ["temperature_2m_max"] 7
              Demo.start))
      (snd (@fetch_forecast (Demo.env Demo.down) Demo.lat_seoul Demo.lon_seoul
              (VStr "Asia/Seoul") ["temperature_2m"] ["temperature_2m_max"] 7
              (set_now 1
                 (snd (@fetch_forecast (Demo.env Demo.down)
                         Demo.lat_seoul Demo.lon_seoul (VStr "Asia/Seoul")
                         ["temperature_2m"] ["temperature_2m_max"] 7
                         Demo.start)))))
    = [forecast_request Demo.seoul_args].
Proof.
  split; [vm_compute; reflexivity | ].
  split; [vm_compute; discriminate | ].
  apply (@fetch_forecast_failure_not_cached (Demo.env Demo.down)
           Demo.lat_seoul Demo.lon_seoul (VStr "Asia/Seoul")
           ["temperature_2m"] ["temperature_2m_max"] 7 Demo.start _
           (HTTPError 503) 1).
  - vm_compute; reflexivity.
  - vm_compute; discriminate.
Defined.

(** X3: once the ten minutes of a stored forecast are over, the next call
    with the same arguments sends a request again. *)
Theorem fetch_forecast_refetches_after_window `{Env} lat lon tz hv dv ds
    (w0 w1 : world) (v : value) (t : Z) :
  in_window forecast_args_same
    {| fa_lat := lat; fa_lon := lon; fa_tz := tz;
       fa_hourly := hv; fa_daily := dv; fa_days := ds |}
    (forecast_cache w0) (now w0) = false →
  fetch_forecast lat lon tz hv dv ds w0 = (Ok v, w1) →
  now w0 + 60 * 10 ≤ t →
  new_requests w1 (snd (fetch_forecast lat lon tz hv dv ds (set_now t w1)))
  = [forecast_request
       {| fa_lat := lat; fa_lon := lon; fa_tz := tz;
          fa_hourly := hv; fa_daily := dv; fa_days := ds |}].
Proof.
  intros Hmiss Hfirst Hlate.
  apply new_requests_one.
  rewrite (fetch_forecast_sent lat lon tz hv dv ds (set_now t w1)). simpl.
  rewrite (fetch_forecast_window_after_miss _ _ _ _ _ _ _ _ _ t Hmiss Hfirst).
  replace (t <? now w0 + 60 * 10) with false; [reflexivity | ].
  symmetry. apply Z.ltb_ge. exact Hlate.
Qed.

Lemma fetch_forecast_refetches_after_window_witness :
  in_window forecast_args_same Demo.seoul_args
    (forecast_cache Demo.start) (now Demo.start) = false
  ∧ @fetch_forecast (Demo.env Demo.honest) Demo.lat_seoul Demo.lon_seoul
      (VStr "Asia/Seoul") ["temperature_2m"] ["temperature_2m_max"] 7 Demo.start
    = (Ok Demo.forecast, Demo.fetched)
  ∧ now Demo.start + 60 * 10 ≤ 600
  ∧ new_requests Demo.fetched
      (snd (@fetch_forecast (Demo.env Demo.honest) Demo.lat_seoul Demo.lon_seoul
              (VStr "Asia/Seoul") ["temperature_2m"] ["temperature_2m_max"] 7
              (set_now 600 Demo.fetched)))
    = [forecast_request Demo.seoul_args].
Proof.
  split; [reflexivity | ].
  split; [vm_compute; reflexivity | ].
  split; [vm_compute; discriminate | ].
  apply (@fetch_forecast_refetches_after_window (Demo.env Demo.honest)
           Demo.lat_seoul Demo.lon_seoul (VStr "Asia/Seoul")
           ["temperature_2m"] ["temperature_2m_max"] 7
           Demo.start Demo.fetched Demo.forecast 600).
  - reflexivity.
  - vm_compute; reflexivity.
  - vm_compute; discriminate.
Defined.

(** X4: a geocoding result is kept for one hour: after a search that found no
    live entry and returned, the same search at any time inside the
    following hour returns the same result without a request, and from
    the end of that hour on it sends a request again. *)
Theorem geocode_cached_for_an_hour `{Env} (query : string) (limit : Z)
    (w0 w1 : world) (v : value) (t : Z) :
  in_window geocode_key_same (query, limit) (geocode_cache w0) (now w0) = false →
  geocode query limit w0 = (Ok v, w1) →
  if t <? now w0 + 60 * 60
  then geocode query limit (set_now t w1)
       = (Ok v, add_event (Called "geocode") (set_now t w1))
  else new_requests w1 (snd (geocode query limit (set_now t w1)))
       = [geocode_request query limit].
Proof.
  intros Hmiss Hfirst.
  assert (Hstored : cache_find geocode_key_same (query, limit) (geocode_cache w1)
                    = Some (v, now w0 + 60 * 60)).
  { revert Hfirst. rewrite geocode_unfold. unfold in_window in Hmiss. simpl.
    rewrite geocode_body_unfold. simpl.
    destruct (cache_find _ _ (geocode_cache w0)) as [[v0 expires] | ].
    - rewrite Hmiss.
      destruct (service _ _) as [ | status body]; [discriminate | ].
      destruct ((400 <=? status) && (status <? 600)); [discriminate | ].
      destruct body as [j | ]; [ | discriminate].
      destruct (get j "results" (VList [])); intros [= <- <-].
      simpl. unfold geocode_key_same. simpl.
      rewrite String.eqb_refl, Z.eqb_refl. reflexivity.
    - destruct (service _ _) as [ | status body]; [discriminate | ].
      destruct ((400 <=? status) && (status <? 600)); [discriminate | ].
      destruct body as [j | ]; [ | discriminate].
      destruct (get j "results" (VList [])); intros [= <- <-].
      simpl. unfold geocode_key_same. simpl.
      rewrite String.eqb_refl, Z.eqb_refl. reflexivity. }
  destruct (t <? now w0 + 60 * 60) eqn:Hin.
  - rewrite geocode_unfold. simpl. rewrite Hstored, Hin. reflexivity.
  - apply new_requests_one.
    rewrite geocode_sent. unfold in_window. simpl. rewrite Hstored, Hin.
    reflexivity.
Qed.

Lemma geocode_cached_for_an_hour_witness :
  in_window geocode_key_same ("Seoul", 5) (geocode_cache Demo.start) (now Demo.start)
  = false
  ∧ @geocode (Demo.env Demo.honest) "Seoul" 5 Demo.start
    = (Ok (VList [Demo.seoul]), Demo.searched_seoul)
  ∧ @geocode (Demo.env Demo.honest) "Seoul" 5 (set_now 3599 Demo.searched_seoul)
    = (Ok (VList [Demo.seoul]),
       add_event (Called "geocode") (set_now 3599 Demo.searched_seoul))
  ∧ new_requests Demo.searched_seoul
      (snd (@geocode (Demo.env Demo.honest) "Seoul" 5
              (set_now 3600 Demo.searched_seoul)))
    = [geocode_request "Seoul" 5].
Proof.
  split; [reflexivity | ].
  split; [vm_compute; reflexivity | ].
  split.
  - apply (@geocode_cached_for_an_hour (Demo.env Demo.honest) "Seoul" 5 Demo.start
             Demo.searched_seoul (VList [Demo.seoul]) 3599).
    + reflexivity.
    + vm_compute; reflexivity.
  - apply (@geocode_cached_for_an_hour (Demo.env Demo.honest) "Seoul" 5 Demo.start
             Demo.searched_seoul (VList [Demo.seoul]) 3600).
    + reflexivity.
    + vm_compute; reflexivity.
Defined.

(** X5: a search stores its result under its own query and limit only: what
    the store holds for any other query or limit is as before. *)
Theorem geocode_other_keys_untouched `{Env} (query : string) (limit : Z)
    (other : string * Z) (w : world) :
  other ≠ (query, limit) →
  cache_find geocode_key_same other (geocode_cache (snd (geocode query limit w)))
  = cache_find geocode_key_same other (geocode_cache w).
Proof.
  intros Hother.
  assert (Hdiff : geocode_key_same other (query, limit) = false).
  { destruct (geocode_key_same other (query, limit)) eqn:Hs; [ | reflexivity].
    apply geocode_key_same_eq in Hs. contradiction. }
  rewrite geocode_unfold. simpl. rewrite geocode_body_unfold. simpl.
  destruct (cache_find geocode_key_same (query, limit) (geocode_cache w))
    as [[v expires] | ].
  - destruct (now w <? expires); [reflexivity | ].
    destruct (service _ _) as [ | status body]; [reflexivity | ].
    destruct ((400 <=? status) && (status <? 600)); [reflexivity | ].
    destruct body as [j | ]; [ | reflexivity].
    destruct (get j "results" (VList [])); simpl; [ | reflexivity].
    rewrite Hdiff. reflexivity.
  - destruct (service _ _) as [ | status body]; [reflexivity | ].
    destruct ((400 <=? status) && (status <? 600)); [reflexivity | ].
    destruct body as [j | ]; [ | reflexivity].
    destruct (get j "results" (VList [])); simpl; [ | reflexivity].
    rewrite Hdiff. reflexivity.
Qed.

Lemma geocode_other_keys_untouched_witness :
  ("Seoul", 6) ≠ ("Seoul", 5)
  ∧ cache_find geocode_key_same ("Seoul", 6) (geocode_cache Demo.searched_seoul)
    = cache_find geocode_key_same ("Seoul", 6) (geocode_cache Demo.start).
Proof.
  split; [discriminate | ].
  apply (@geocode_other_keys_untouched (Demo.env Demo.honest) "Seoul" 5
           ("Seoul", 6) Demo.start).
  discriminate.
Defined.

(** X6: no request of [fetch_forecast] carries a parameter that is [None],
    and each one has the coordinates, [current_weather=true] and the
    number of days; the timezone is there unless it is [None]. *)
Theorem forecast_request_parameters `{Env}
    lat lon tz (hourly_vars daily_vars : list string) ds (w : world) :
  Forall (λ rq,
      req_url rq = FORECAST_URL
      ∧ Forall (λ kv, snd kv ≠ VNone) (req_params rq)
      ∧ lookup_item "latitude" (req_params rq) = Some (VFloat lat)
      ∧ lookup_item "longitude" (req_params rq) = Some (VFloat lon)
      ∧ lookup_item "current_weather" (req_params rq) = Some (VStr "true")
      ∧ lookup_item "forecast_days" (req_params rq) = Some (VInt ds)
      ∧ lookup_item "timezone" (req_params rq)
        = match tz with VNone => None | _ => Some tz end)
    (new_requests w (snd (fetch_forecast lat lon tz hourly_vars daily_vars ds w))).
Proof.
  pose proof (fetch_forecast_sent lat lon tz hourly_vars daily_vars ds w) as Hs.
  simpl in Hs. destruct (in_window _ _ _ _).
  - rewrite (new_requests_same _ _ Hs). constructor.
  - rewrite (new_requests_one _ _ _ Hs). constructor; [ | constructor]. simpl.
    unfold forecast_params. simpl.
    destruct hourly_vars, daily_vars, tz; simpl;
      repeat split; repeat constructor; simpl; discriminate.
Qed.

(** ** What the steps of a run touch *)

Lemma only_draws_ret {A} (a : A) : only_draws (mret a).
Proof. intros w. repeat split. Qed.

Lemma only_draws_lift {A} (r : result A) : only_draws (lift r).
Proof. intros w. repeat split. Qed.

Lemma only_draws_emit (e : event) : only_draws (emit e).
Proof. intros w. repeat split. Qed.

Lemma only_draws_bind {A B} (m : M A) (f : A → M B) :
  only_draws m → (∀ a, only_draws (f a)) → only_draws (m ≫= f).
Proof.
  intros Hm Hf w. unfold mbind, M_bind. specialize (Hm w).
  destruct (m w) as [[a | e] w']; simpl in *; [ | exact Hm].
  destruct Hm as (Hn & Hs & Hg & Hc).
  destruct (Hf a w') as (Hn' & Hs' & Hg' & Hc').
  repeat split; congruence.
Qed.

Lemma only_draws_for_each {A} (body : A → M unit) (xs : list A) :
  (∀ x, only_draws (body x)) → only_draws (for_each body xs).
Proof.
  intros Hbody. induction xs as [ | x xs IH]; simpl.
  - apply only_draws_ret.
  - apply only_draws_bind; [apply Hbody | intros _; exact IH].
Qed.

Lemma appends_ret {A} (a : A) : appends (mret a).
Proof. intros w. exists []. simpl. rewrite app_nil_r. reflexivity. Qed.

Lemma appends_lift {A} (r : result A) : appends (lift r).
Proof. intros w. exists []. simpl. rewrite app_nil_r. reflexivity. Qed.

Lemma appends_emit (e : event) : appends (emit e).
Proof. intros w. exists [e]. reflexivity. Qed.

Lemma appends_bind {A B} (m : M A) (f : A → M B) :
  appends m → (∀ a, appends (f a)) → appends (m ≫= f).
Proof.
  intros Hm Hf w. unfold mbind, M_bind. specialize (Hm w).
  destruct (m w) as [[a | e] w']; simpl in *; [ | exact Hm].
  destruct Hm as [es Hes]. destruct (Hf a w') as [es' Hes'].
  exists (es ++ es')%list. rewrite Hes', Hes, app_assoc. reflexivity.
Qed.

Lemma appends_for_each {A} (body : A → M unit) (xs : list A) :
  (∀ x, appends (body x)) → appends (for_each body xs).
Proof.
  intros Hbody. induction xs as [ | x xs IH]; simpl.
  - apply appends_ret.
  - apply appends_bind; [apply Hbody | intros _; exact IH].
Qed.

Ltac draws :=
  repeat first
    [ apply only_draws_ret | apply only_draws_lift | apply only_draws_emit
    | apply only_draws_for_each; intros ?
    | apply only_draws_bind; [ | intros ? ]
    | match goal with
      | |- only_draws (if ?b then _ else _) => destruct b
      | |- only_draws (match ?x with _ => _ end) => destruct x
      end ].

Ltac adds :=
  repeat first
    [ apply appends_ret | apply appends_lift | apply appends_emit
    | apply appends_for_each; intros ?
    | apply appends_bind; [ | intros ? ]
    | match goal with
      | |- appends (if ?b then _ else _) => destruct b
      | |- appends (match ?x with _ => _ end) => destruct x
      end ].

Lemma renderers_draw `{Env} (data : value) (selection : list string) :
  only_draws (render_current data)
  ∧ only_draws (render_hourly data selection)
  ∧ only_draws (render_daily data selection).
Proof.
  split; [ | split].
  - unfold render_current. draws.
  - unfold render_hourly, plot_if_present. draws.
  - unfold render_daily. draws.
Qed.

(** ** The requests of a run *)

Lemma sends_of_draws {A} (allowed : list request → Prop) (m : M A) :
  only_draws m → allowed [] → sends allowed m.
Proof.
  intros Hm Hnil w. exists []. destruct (Hm w) as (_ & Hs & _).
  rewrite Hs, app_nil_r. auto.
Qed.

Lemma sends_bind_l {A B} (allowed : list request → Prop)
    (m : M A) (f : A → M B) :
  only_draws m → (∀ a, sends allowed (f a)) → allowed [] →
  sends allowed (m ≫= f).
Proof.
  intros Hm Hf Hnil w. unfold mbind, M_bind.
  destruct (Hm w) as (_ & Hs & _).
  destruct (m w) as [[a | e] w']; simpl in *.
  - destruct (Hf a w') as (rs & Hrs & Hok). exists rs. rewrite Hrs, Hs. auto.
  - exists []. rewrite Hs, app_nil_r. auto.
Qed.

Lemma sends_bind_r {A B} (allowed : list request → Prop)
    (m : M A) (f : A → M B) :
  sends allowed m → (∀ a, only_draws (f a)) → sends allowed (m ≫= f).
Proof.
  intros Hm Hf w. unfold mbind, M_bind.
  destruct (Hm w) as (rs & Hrs & Hok).
  destruct (m w) as [[a | e] w']; simpl in *.
  - destruct (Hf a w') as (_ & Hs & _). exists rs. rewrite Hs. auto.
  - exists rs. auto.
Qed.

Lemma sends_bind {A B} (first second : list request → Prop)
    (m : M A) (f : A → M B) :
  sends first m → (∀ a, sends second (f a)) → second [] →
  sends (λ rs, ∃ r1 r2, rs = (r1 ++ r2)%list ∧ first r1 ∧ second r2) (m ≫= f).
Proof.
  intros Hm Hf Hnil w. unfold mbind, M_bind.
  destruct (Hm w) as (r1 & Hr1 & Hok1).
  destruct (m w) as [[a | e] w']; simpl in *.
  - destruct (Hf a w') as (r2 & Hr2 & Hok2).
    exists (r1 ++ r2)%list. rewrite Hr2, Hr1, app_assoc. eauto 6.
  - exists r1. split; [exact Hr1 | ]. exists r1, []. rewrite app_nil_r. auto.
Qed.

Lemma geocode_sends `{Env} (query : string) (limit : Z) :
  sends (λ rs, rs = [] ∨ rs = [geocode_request query limit])
    (geocode query limit).
Proof.
  intros w. rewrite geocode_sent. destruct (in_window _ _ _ _).
  - exists []. rewrite app_nil_r. auto.
  - eauto.
Qed.

Lemma fetch_forecast_sends `{Env} lat lon tz hv dv ds :
  sends (λ rs, rs = []
               ∨ rs = [forecast_request
                         {| fa_lat := lat; fa_lon := lon; fa_tz := tz;
                            fa_hourly := hv; fa_daily := dv; fa_days := ds |}])
    (fetch_forecast lat lon tz hv dv ds).
Proof.
  intros w. rewrite (fetch_forecast_sent lat lon tz hv dv ds w).
  destruct (in_window _ _ _ _).
  - exists []. rewrite app_nil_r. auto.
  - eexists. split; [reflexivity | ]. right. reflexivity.
Qed.

(** The requests a forecast for the sidebar's selections may need. *)
Lemma show_results_sends `{Env} (i : inputs) (results : value) :
  sends (λ rs, rs = []
               ∨ ∃ lat lon tz,
                   rs = [forecast_request
                           {| fa_lat := lat; fa_lon := lon; fa_tz := tz;
                              fa_hourly := hourly_options i;
                              fa_daily := daily_options i;
                              fa_days := days i |}])
    (show_results i results).
Proof.
  unfold show_results.
  apply sends_bind_l; [draws | intros rows | auto].
  apply sends_bind_l; [draws | intros _ | auto].
  apply sends_bind_l; [draws | intros _ | auto].
  apply sends_bind_l; [draws | intros [sel [[lat lon] tz]] | auto].
  apply sends_bind_l; [draws | intros _ | auto].
  apply sends_bind_l; [draws | intros _ | auto].
  apply sends_bind_r.
  - intros w. destruct (fetch_forecast_sends lat lon tz (hourly_options i)
                          (daily_options i) (days i) w) as (rs & Hrs & Hok).
    exists rs. split; [exact Hrs | ]. destruct Hok as [-> | ->]; eauto.
  - intros data. pose proof (renderers_draw data (hourly_options i)) as (Hc & Hh & _).
    pose proof (renderers_draw data (daily_options i)) as (_ & _ & Hd).
    apply only_draws_bind; [exact Hc | intros _].
    apply only_draws_bind; [exact Hh | intros _].
    apply only_draws_bind; [exact Hd | intros _].
    draws.
Qed.

(** X8: one run of the script sends at most two requests: at most one search
    for the query and limit of the sidebar, followed by at most one
    forecast request for the selections and the number of days of the
    sidebar.  No forecast request comes before the search. *)
Theorem script_sends_at_most_two `{Env} (i : inputs) (w : world) :
  ∃ gs fs,
    new_requests w (snd (script i w)) = (gs ++ fs)%list
    ∧ (gs = [] ∨ gs = [geocode_request (q i) (max_results i)])
    ∧ (fs = []
       ∨ ∃ lat lon tz,
           fs = [forecast_request
                   {| fa_lat := lat; fa_lon := lon; fa_tz := tz;
                      fa_hourly := hourly_options i;
                      fa_daily := daily_options i;
                      fa_days := days i |}]).
Proof.
  assert (Hrun : sends (λ rs, ∃ gs fs,
                          rs = (gs ++ fs)%list
                          ∧ (gs = [] ∨ gs = [geocode_request (q i) (max_results i)])
                          ∧ (fs = []
                             ∨ ∃ lat lon tz,
                                 fs = [forecast_request
                                         {| fa_lat := lat; fa_lon := lon; fa_tz := tz;
                                            fa_hourly := hourly_options i;
                                            fa_daily := daily_options i;
                                            fa_days := days i |}]))
                   (script i)).
  { unfold script.
    destruct (search_btn i && truthy (VStr (strip (q i)))).
    - apply sends_bind_l; [draws | intros _ | exists [], []; auto].
      apply sends_bind; [apply geocode_sends | intros results | auto].
      destruct (negb (truthy results)).
      + apply sends_of_draws; [draws | auto].
      + apply show_results_sends.
    - apply sends_of_draws; [draws | exists [], []; auto]. }
  destruct (Hrun w) as (rs & Hrs & Hok).
  unfold new_requests. rewrite Hrs, drop_app_length. exact Hok.
Qed.

(** ** The course of a run *)

Lemma bind_lift {A B} (r : result A) (f : A → M B) (w : world) :
  (lift r ≫= f) w = match r with Ok a => f a w | Raise e => (Raise e, w) end.
Proof. destruct r; reflexivity. Qed.

Lemma bind_emit {B} (e : event) (f : unit → M B) (w : world) :
  (emit e ≫= f) w = f tt (add_event e w).
Proof. reflexivity. Qed.

Lemma bind_run {A B} (m : M A) (f : A → M B) (w : world) :
  (m ≫= f) w = match m w with
               | (Ok a, w') => f a w'
               | (Raise e, w') => (Raise e, w')
               end.
Proof. reflexivity. Qed.

Lemma fetch_forecast_trace `{Env} lat lon tz hv dv ds (w : world) :
  trace (snd (fetch_forecast lat lon tz hv dv ds w))
  = (trace w ++ [Called "fetch_forecast"])%list.
Proof.
  rewrite fetch_forecast_unfold. simpl. rewrite fetch_forecast_body_unfold.
  destruct (cache_find _ _ _) as [[v expires] | ].
  - destruct (now w <? expires); [reflexivity | ].
    destruct (service _ _) as [ | status body]; [reflexivity | ].
    destruct ((400 <=? status) && (status <? 600)); [reflexivity | ].
    destruct body; reflexivity.
  - destruct (service _ _) as [ | status body]; [reflexivity | ].
    destruct ((400 <=? status) && (status <? 600)); [reflexivity | ].
    destruct body; reflexivity.
Qed.

Lemma rendering_appends `{Env} (data : value) (selection : list string) :
  appends (render_current data)
  ∧ appends (render_hourly data selection)
  ∧ appends (render_daily data selection).
Proof.
  split; [ | split].
  - unfold render_current. adds.
  - unfold render_hourly, plot_if_present. adds.
  - unfold render_daily. adds.
Qed.

Lemma show_results_appends `{Env} (i : inputs) (results : value) :
  appends (show_results i results).
Proof.
  unfold show_results.
  apply appends_bind; [adds | intros rows].
  apply appends_bind; [adds | intros _].
  apply appends_bind; [adds | intros _].
  apply appends_bind; [adds | intros [sel [[lat lon] tz]]].
  apply appends_bind; [adds | intros _].
  apply appends_bind; [adds | intros _].
  apply appends_bind.
  - intros w. eexists. apply fetch_forecast_trace.
  - intros data.
    pose proof (rendering_appends data (hourly_options i)) as (Hc & Hh & _).
    pose proof (rendering_appends data (daily_options i)) as (_ & _ & Hd).
    apply appends_bind; [exact Hc | intros _].
    apply appends_bind; [exact Hh | intros _].
    apply appends_bind; [exact Hd | intros _].
    adds.
Qed.

Lemma search_condition (i : inputs) :
  search_btn i && truthy (VStr (strip (q i))) = true
  ↔ search_btn i = true ∧ strip (q i) ≠ EmptyString.
Proof.
  rewrite andb_true_iff. simpl. rewrite negb_true_iff, String.eqb_neq.
  reflexivity.
Qed.

(** X9: a run searches exactly when the button was pressed and the query is
    not blank: only then is [geocode] invoked. *)
Theorem script_searches_iff_asked `{Env} (i : inputs) (w : world) :
  Called "geocode" ∈ new_events w (snd (script i w))
  ↔ search_btn i = true ∧ strip (q i) ≠ EmptyString.
Proof.
  rewrite <- search_condition. unfold script.
  destruct (search_btn i && truthy (VStr (strip (q i)))).
  - split; [reflexivity | intros _].
    rewrite bind_emit, bind_run.
    pose proof (geocode_trace (q i) (max_results i)
                  (add_event (StSpinner "위치 검색 중...") w)) as Htr.
    destruct (geocode _ _ _) as [[results | e] w1]; simpl in Htr.
    + assert (Hrest : ∃ es, trace (snd ((if negb (truthy results)
                                          then emit (StWarning NO_RESULTS)
                                          else show_results i results) w1))
                            = (trace w1 ++ es)%list).
      { destruct (negb (truthy results));
          [apply appends_emit | apply show_results_appends]. }
      destruct Hrest as [es Hes].
      erewrite new_events_app;
        [ | rewrite Hes, Htr; rewrite <- !app_assoc; reflexivity].
      simpl. apply list_elem_of_further, list_elem_of_here.
    + erewrite new_events_app; [ | simpl; rewrite Htr, <- app_assoc; reflexivity].
      simpl. apply list_elem_of_further, list_elem_of_here.
  - split; [ | discriminate]. intros Hin.
    erewrite new_events_app in Hin; [ | reflexivity].
    apply list_elem_of_singleton in Hin. discriminate.
Qed.

(** X10: when the search raises, the run raises the same exception at once:
    after the spinner and the call nothing is shown, neither the warning
    nor a result. *)
Theorem geocode_failure_stops_run `{Env} (i : inputs) (w w1 : world) (e : exn) :
  search_btn i = true →
  strip (q i) ≠ EmptyString →
  geocode (q i) (max_results i) (add_event (StSpinner "위치 검색 중...") w)
    = (Raise e, w1) →
  script i w = (Raise e, w1)
  ∧ new_events w w1 = [StSpinner "위치 검색 중..."; Called "geocode"].
Proof.
  intros Hbtn Hq Hgeo. split.
  - unfold script. rewrite (proj2 (search_condition i) (conj Hbtn Hq)).
    rewrite bind_emit, bind_run, Hgeo. reflexivity.
  - pose proof (geocode_trace (q i) (max_results i)
                  (add_event (StSpinner "위치 검색 중...") w)) as Htr.
    rewrite Hgeo in Htr. simpl in Htr.
    apply new_events_app. rewrite Htr, <- app_assoc. reflexivity.
Qed.

Lemma geocode_failure_stops_run_witness :
  search_btn (Demo.search "Seoul") = true
  ∧ strip (q (Demo.search "Seoul")) ≠ EmptyString
  ∧ @geocode (Demo.env Demo.down) "Seoul" 5
      (add_event (StSpinner "위치 검색 중...") Demo.start)
    = (Raise (HTTPError 503), Demo.searched Demo.down "Seoul" 5)
  ∧ @script (Demo.env Demo.down) (Demo.search "Seoul") Demo.start
    = (Raise (HTTPError 503), Demo.searched Demo.down "Seoul" 5)
  ∧ new_events Demo.start (Demo.searched Demo.down "Seoul" 5)
    = [StSpinner "위치 검색 중..."; Called "geocode"].
Proof.
  split; [reflexivity | ].
  split; [vm_compute; discriminate | ].
  split; [vm_compute; reflexivity | ].
  apply (@geocode_failure_stops_run (Demo.env Demo.down) (Demo.search "Seoul")
           Demo.start (Demo.searched Demo.down "Seoul" 5) (HTTPError 503)).
  - reflexivity.
  - vm_compute; discriminate.
  - vm_compute; reflexivity.
Defined.

(** X11: whatever falsy value the search returns, be it an empty list, null,
    zero, an empty string or an empty object, the run takes it for no
    result: it shows the warning and does not invoke [fetch_forecast]. *)
Theorem falsy_results_give_warning `{Env} (i : inputs) (w w1 : world)
    (results : value) :
  search_btn i = true →
  strip (q i) ≠ EmptyString →
  geocode (q i) (max_results i) (add_event (StSpinner "위치 검색 중...") w)
    = (Ok results, w1) →
  truthy results = false →
  script i w = (Ok tt, add_event (StWarning NO_RESULTS) w1)
  ∧ new_events w (add_event (StWarning NO_RESULTS) w1)
    = [StSpinner "위치 검색 중..."; Called "geocode"; StWarning NO_RESULTS].
Proof.
  intros Hbtn Hq Hgeo Hfalsy. split.
  - unfold script. rewrite (proj2 (search_condition i) (conj Hbtn Hq)).
    rewrite bind_emit, bind_run, Hgeo, Hfalsy. reflexivity.
  - pose proof (geocode_trace (q i) (max_results i)
                  (add_event (StSpinner "위치 검색 중...") w)) as Htr.
    rewrite Hgeo in Htr. simpl in Htr.
    apply new_events_app. simpl. rewrite Htr, <- !app_assoc. reflexivity.
Qed.

Lemma falsy_results_give_warning_witness :
  search_btn (Demo.search "Seoul") = true
  ∧ strip (q (Demo.search "Seoul")) ≠ EmptyString
  ∧ @geocode (Demo.env Demo.null_results) "Seoul" 5
      (add_event (StSpinner "위치 검색 중...") Demo.start)
    = (Ok VNone, Demo.searched Demo.null_results "Seoul" 5)
  ∧ truthy VNone = false
  ∧ @script (Demo.env Demo.null_results) (Demo.search "Seoul") Demo.start
    = (Ok tt, add_event (StWarning NO_RESULTS)
                (Demo.searched Demo.null_results "Seoul" 5))
  ∧ new_events Demo.start
      (add_event (StWarning NO_RESULTS) (Demo.searched Demo.null_results "Seoul" 5))
    = [StSpinner "위치 검색 중..."; Called "geocode"; StWarning NO_RESULTS].
Proof.
  split; [reflexivity | ].
  split; [vm_compute; discriminate | ].
  split; [vm_compute; reflexivity | ].
  split; [reflexivity | ].
  apply (@falsy_results_give_warning (Demo.env Demo.null_results)
           (Demo.search "Seoul") Demo.start
           (Demo.searched Demo.null_results "Seoul" 5) VNone).
  - reflexivity.
  - vm_compute; discriminate.
  - vm_compute; reflexivity.
  - reflexivity.
Defined.

(** X12: when the selection resolves but the forecast fetch raises, the run
    raises the same exception and the page stops at the fetch: the result
    list, the selection line and the spinner are there, and no summary,
    chart, table, map or raw document. *)
Theorem forecast_failure_shows_no_forecast `{Env} (i : inputs) (results : value)
    (rows : list row) (sel : string) (lat lon : float) (tz : value)
    (w w' : world) (e : exn) :
  build_rows results = Ok rows →
  resolve_selection rows (pick i) = Ok (sel, (lat, lon, tz)) →
  fetch_forecast lat lon tz (hourly_options i) (daily_options i) (days i)
    (add_events
       [ StSubheader "검색 결과";
         StRadio "지역 선택" (map row_name rows);
         StMarkdown ("**선택:** " ++ sel ++ " — 위도: " ++ py_fmt4f lat
                     ++ ", 경도: " ++ py_fmt4f lon
                     ++ ", timezone: " ++ py_str tz);
         StSpinner "예보 불러오는 중..." ] w)
  = (Raise e, w') →
  show_results i results w = (Raise e, w')
  ∧ new_events w w'
    = [ StSubheader "검색 결과";
        StRadio "지역 선택" (map row_name rows);
        StMarkdown ("**선택:** " ++ sel ++ " — 위도: " ++ py_fmt4f lat
                    ++ ", 경도: " ++ py_fmt4f lon
                    ++ ", timezone: " ++ py_str tz);
        StSpinner "예보 불러오는 중...";
        Called "fetch_forecast" ].
Proof.
  intros Hrows Hsel Hfetch. split.
  - unfold show_results. rewrite bind_lift, Hrows, !bind_emit, bind_lift, Hsel.
    rewrite !bind_emit, bind_run. unfold add_events in Hfetch. simpl in Hfetch.
    rewrite Hfetch. reflexivity.
  - pose proof (fetch_forecast_trace lat lon tz (hourly_options i)
                  (daily_options i) (days i)
                  (add_events
                     [ StSubheader "검색 결과";
                       StRadio "지역 선택" (map row_name rows);
                       StMarkdown ("**선택:** " ++ sel ++ " — 위도: " ++ py_fmt4f lat
                                   ++ ", 경도: " ++ py_fmt4f lon
                                   ++ ", timezone: " ++ py_str tz);
                       StSpinner "예보 불러오는 중..." ] w)) as Htr.
    rewrite Hfetch, trace_add_events in Htr. simpl in Htr.
    apply new_events_app. rewrite Htr, <- app_assoc. reflexivity.
Qed.

Lemma forecast_failure_shows_no_forecast_witness :
  @build_rows (Demo.env Demo.forecast_down) (VList [Demo.seoul]) = Ok (take 1 Demo.rows)
  ∧ @resolve_selection (Demo.env Demo.forecast_down) (take 1 Demo.rows)
      (pick (Demo.search "Seoul"))
    = Ok (Demo.listed_name, (Demo.lat_seoul, Demo.lon_seoul, VStr "Asia/Seoul"))
  ∧ fst (@show_results (Demo.env Demo.forecast_down) (Demo.search "Seoul")
           (VList [Demo.seoul]) Demo.searched_seoul)
    = Raise (HTTPError 503)
  ∧ new_events Demo.searched_seoul
      (snd (@show_results (Demo.env Demo.forecast_down) (Demo.search "Seoul")
              (VList [Demo.seoul]) Demo.searched_seoul))
    = [ StSubheader "검색 결과";
        StRadio "지역 선택" [Demo.listed_name];
        StMarkdown "**선택:** Seoul, South Korea (Seoul) — 위도: 37.5000, 경도: 127.0000, timezone: Asia/Seoul";
        StSpinner "예보 불러오는 중...";
        Called "fetch_forecast" ].
Proof.
  split; [vm_compute; reflexivity | ].
  split; [vm_compute; reflexivity | ].
  destruct (@forecast_failure_shows_no_forecast (Demo.env Demo.forecast_down)
              (Demo.search "Seoul") (VList [Demo.seoul]) (take 1 Demo.rows)
              Demo.listed_name Demo.lat_seoul Demo.lon_seoul (VStr "Asia/Seoul")
              Demo.searched_seoul
              (snd (@show_results (Demo.env Demo.forecast_down) (Demo.search "Seoul")
                      (VList [Demo.seoul]) Demo.searched_seoul))
              (HTTPError 503)) as [Hrun Hev].
  - vm_compute; reflexivity.
  - vm_compute; reflexivity.
  - vm_compute; reflexivity.
  - split; [rewrite Hrun; reflexivity | exact Hev].
Defined.

(** X13: a run that gets through the results without raising ends with the
    map and the raw document: the map is centred on the coordinates the
    selection resolved to, at zoom 10, and the raw document is the one
    [fetch_forecast] returned for these coordinates. *)
Theorem completed_run_ends_with_map_and_document `{Env}
    (i : inputs) (results : value) (w w' : world) :
  show_results i results w = (Ok tt, w') →
  ∃ rows sel lat lon tz data shown,
    build_rows results = Ok rows
    ∧ resolve_selection rows (pick i) = Ok (sel, (lat, lon, tz))
    ∧ fst (fetch_forecast lat lon tz (hourly_options i) (daily_options i) (days i)
             (add_events
                [ StSubheader "검색 결과";
                  StRadio "지역 선택" (map row_name rows);
                  StMarkdown ("**선택:** " ++ sel ++ " — 위도: " ++ py_fmt4f lat
                              ++ ", 경도: " ++ py_fmt4f lon
                              ++ ", timezone: " ++ py_str tz);
                  StSpinner "예보 불러오는 중..." ] w))
      = Ok data
    ∧ new_events w w'
      = (shown ++ [ StSubheader "지도"; StMap lat lon 10;
                    StExpander "원본 API 응답 보기 (JSON)"; StJson data ])%list.
Proof.
  unfold show_results. rewrite bind_lift.
  destruct (build_rows results) as [rows | e] eqn:Hrows; [ | discriminate].
  rewrite !bind_emit, bind_lift.
  destruct (resolve_selection rows (pick i)) as [[sel [[lat lon] tz]] | e] eqn:Hsel;
    [ | discriminate].
  rewrite !bind_emit, bind_run.
  change (add_event (StSpinner "예보 불러오는 중...") _)
    with (add_events
            [ StSubheader "검색 결과";
              StRadio "지역 선택" (map row_name rows);
              StMarkdown ("**선택:** " ++ sel ++ " — 위도: " ++ py_fmt4f lat
                          ++ ", 경도: " ++ py_fmt4f lon
                          ++ ", timezone: " ++ py_str tz);
              StSpinner "예보 불러오는 중..." ] w).
  set (before := [ StSubheader "검색 결과";
                   StRadio "지역 선택" (map row_name rows);
                   StMarkdown _; StSpinner "예보 불러오는 중..." ]).
  pose proof (fetch_forecast_trace lat lon tz (hourly_options i)
                (daily_options i) (days i) (add_events before w)) as Hf.
  rewrite trace_add_events in Hf.
  destruct (fetch_forecast lat lon tz _ _ _ (add_events before w))
    as [[data | e] w1] eqn:Hfetch; [ | discriminate].
  cbn [snd] in Hf.
  destruct (rendering_appends data (hourly_options i)) as (Hc & Hh & _).
  destruct (rendering_appends data (daily_options i)) as (_ & _ & Hd).
  rewrite bind_run. destruct (Hc w1) as [es1 He1].
  destruct (render_current data w1) as [[[] | e] w2]; [ | discriminate].
  rewrite bind_run. destruct (Hh w2) as [es2 He2].
  destruct (render_hourly data (hourly_options i) w2) as [[[] | e] w3];
    [ | discriminate].
  rewrite bind_run. destruct (Hd w3) as [es3 He3].
  destruct (render_daily data (daily_options i) w3) as [[[] | e] w4];
    [ | discriminate].
  cbn [snd] in He1, He2, He3.
  rewrite bind_emit, bind_run.
  destruct (map_error lat lon) as [e | ]; [unfold lift; discriminate | ].
  unfold emit at 1. rewrite !bind_emit. unfold emit. intros [= <-].
  exists rows, sel, lat, lon, tz, data,
    (before ++ [Called "fetch_forecast"] ++ es1 ++ es2 ++ es3)%list.
  split; [reflexivity | ]. split; [exact Hsel | ].
  split; [fold before; rewrite Hfetch; reflexivity | ].
  apply new_events_app. cbn [trace add_event].
  rewrite He3, He2, He1, Hf. rewrite <- !app_assoc. reflexivity.
Qed.

Lemma completed_run_ends_with_map_and_document_witness :
  @show_results (Demo.env Demo.honest) (Demo.search "Seoul")
    (VList [Demo.seoul]) Demo.searched_seoul
  = (Ok tt,
     snd (@show_results (Demo.env Demo.honest) (Demo.search "Seoul")
            (VList [Demo.seoul]) Demo.searched_seoul))
  ∧ ∃ rows sel lat lon tz data shown,
      @build_rows (Demo.env Demo.honest) (VList [Demo.seoul]) = Ok rows
      ∧ @resolve_selection (Demo.env Demo.honest) rows (pick (Demo.search "Seoul"))
        = Ok (sel, (lat, lon, tz))
      ∧ fst (@fetch_forecast (Demo.env Demo.honest) lat lon tz
               (hourly_options (Demo.search "Seoul"))
               (daily_options (Demo.search "Seoul")) (days (Demo.search "Seoul"))
               (add_events
                  [ StSubheader "검색 결과";
                    StRadio "지역 선택" (map row_name rows);
                    StMarkdown ("**선택:** " ++ sel ++ " — 위도: "
                                ++ @py_fmt4f (Demo.env Demo.honest) lat
                                ++ ", 경도: " ++ @py_fmt4f (Demo.env Demo.honest) lon
                                ++ ", timezone: "
                                ++ @py_str (Demo.env Demo.honest) tz);
                    StSpinner "예보 불러오는 중..." ] Demo.searched_seoul))
        = Ok data
      ∧ new_events Demo.searched_seoul
          (snd (@show_results (Demo.env Demo.honest) (Demo.search "Seoul")
                  (VList [Demo.seoul]) Demo.searched_seoul))
        = (shown ++ [ StSubheader "지도"; StMap lat lon 10;
                      StExpander "원본 API 응답 보기 (JSON)"; StJson data ])%list.
Proof.
  split; [vm_compute; reflexivity | ].
  apply (@completed_run_ends_with_map_and_document (Demo.env Demo.honest)
           (Demo.search "Seoul") (VList [Demo.seoul]) Demo.searched_seoul).
  vm_compute; reflexivity.
Defined.

(** The map and the raw document of the example run. *)
Example completed_run_example :
  drop 11 (new_events Demo.searched_seoul
            (snd (@show_results (Demo.env Demo.honest) (Demo.search "Seoul")
                    (VList [Demo.seoul]) Demo.searched_seoul)))
  = [ StDataframe
        [ ("time", [CTime 0; CTime Demo.day]);
          ("temperature_2m_max", [CVal (VInt 25); CVal (VInt 27)]);
          ("precipitation_sum", [CVal (VInt 0); CVal (VInt 3)]) ];
      StSubheader "지도"; StMap Demo.lat_seoul Demo.lon_seoul 10;
      StExpander "원본 API 응답 보기 (JSON)"; StJson Demo.forecast ].
Proof. vm_compute; reflexivity. Qed.

(** ** The list of candidates *)

(** X14: a candidate yields a row exactly when it is an object that has a
    latitude and a longitude; its name, country, region and timezone may
    all be missing. *)
Theorem row_of_needs_coordinates `{Env} (cand : value) :
  (∃ r, row_of cand = Ok r)
  ↔ ∃ items,
      cand = VDict items
      ∧ is_Some (lookup_item "latitude" items)
      ∧ is_Some (lookup_item "longitude" items).
Proof.
  unfold row_of, mbind, result_bind. split.
  - intros [r Hr]. destruct cand as [ | | | | | | items]; try discriminate.
    exists items. split; [reflexivity | ]. simpl in Hr.
    destruct (lookup_item "latitude" items); [ | discriminate].
    destruct (lookup_item "longitude" items); [ | discriminate].
    split; eauto.
  - intros (items & -> & [lat Hlat] & [lon Hlon]). simpl.
    rewrite Hlat, Hlon. eauto.
Qed.

(** X15: the rows are built all or none: a list of candidates gives rows
    exactly when every candidate yields its row, and then the rows are
    those, one per candidate and in the order of the candidates. *)
Theorem build_rows_all_or_none `{Env} (candidates : list value) (rows : list row) :
  build_rows (VList candidates) = Ok rows
  ↔ Forall2 (λ cand r, row_of cand = Ok r) candidates rows.
Proof.
  simpl. revert rows. induction candidates as [ | c cs IH]; intros rows; simpl.
  - split.
    + intros [= <-]. constructor.
    + intros Hall. inversion Hall. reflexivity.
  - split.
    + destruct (row_of c) as [r | e] eqn:Hc; [ | discriminate].
      destruct (map_result row_of cs) as [rs | e] eqn:Hcs; [ | discriminate].
      intros [= <-]. constructor; [exact Hc | ]. apply IH. reflexivity.
    + intros Hall. inversion Hall as [ | ? r ? rs Hc Hrest]; subst.
      rewrite Hc. apply IH in Hrest. rewrite Hrest. reflexivity.
Qed.

(** A candidate without a latitude keeps the whole list from being
    shown, also when the other candidates are complete. *)
Example build_rows_example :
  @build_rows (Demo.env Demo.honest)
    (VList [Demo.seoul; VDict [("name", VStr "Nowhere")]])
  = Raise (KeyError "latitude").
Proof. vm_compute; reflexivity. Qed.

(** X16: whichever entry is picked, the selection reads the first row
    listed under the picked name.  It resolves to that name, to [float] of
    the cells pandas holds at that index for the latitudes and the
    longitudes, and to the cell it holds there for the timezones, or
    ["UTC"] when that cell is falsy. *)
Theorem selection_reads_first_listed `{Env}
    (rows : list row) (pick : nat) (sel : string) :
  map row_name rows !! pick = Some sel →
  ∃ (idx : nat) (lat_cell lon_cell tz_cell : value),
    (idx ≤ pick)%nat
    ∧ map row_name rows !! idx = Some sel
    ∧ (∀ j, (j < idx)%nat → map row_name rows !! j ≠ Some sel)
    ∧ records_cells (map row_lat rows) !! idx = Some lat_cell
    ∧ records_cells (map row_lon rows) !! idx = Some lon_cell
    ∧ records_cells (map row_timezone rows) !! idx = Some tz_cell
    ∧ resolve_selection rows pick
      = (lat ← py_float float_of_str lat_cell;
         lon ← py_float float_of_str lon_cell;
         Ok (sel, (lat, lon, py_or tz_cell (VStr "UTC")))).
Proof.
  intros Hpick.
  destruct (resolve_selection_first _ _ _ Hpick) as (idx & Hle & Hat & Hmin & Hres).
  destruct (iloc_records row_lat row_name rows idx sel Hat) as (lat_cell & Hlat & Hl).
  destruct (iloc_records row_lon row_name rows idx sel Hat) as (lon_cell & Hlon & Hn).
  destruct (iloc_records row_timezone row_name rows idx sel Hat)
    as (tz_cell & Htz & Ht).
  exists idx, lat_cell, lon_cell, tz_cell.
  repeat split; try assumption.
  rewrite Hres, Hl, Hn, Ht. reflexivity.
Qed.

Lemma selection_reads_first_listed_witness :
  map row_name Demo.rows !! 1%nat = Some Demo.listed_name
  ∧ ∃ (idx : nat) (lat_cell lon_cell tz_cell : value),
      (idx ≤ 1)%nat
      ∧ map row_name Demo.rows !! idx = Some Demo.listed_name
      ∧ (∀ j, (j < idx)%nat → map row_name Demo.rows !! j ≠ Some Demo.listed_name)
      ∧ @records_cells (Demo.env Demo.honest) (map row_lat Demo.rows) !! idx
        = Some lat_cell
      ∧ @records_cells (Demo.env Demo.honest) (map row_lon Demo.rows) !! idx
        = Some lon_cell
      ∧ @records_cells (Demo.env Demo.honest) (map row_timezone Demo.rows) !! idx
        = Some tz_cell
      ∧ @resolve_selection (Demo.env Demo.honest) Demo.rows 1
        = (lat ← py_float (@float_of_str (Demo.env Demo.honest)) lat_cell;
           lon ← py_float (@float_of_str (Demo.env Demo.honest)) lon_cell;
           Ok (Demo.listed_name, (lat, lon, py_or tz_cell (VStr "UTC")))).
Proof.
  split; [reflexivity | ].
  exact (@selection_reads_first_listed (Demo.env Demo.honest)
           Demo.rows 1 Demo.listed_name eq_refl).
Defined.

Lemma py_or_truthy (a b : value) : truthy b = true → truthy (py_or a b) = true.
Proof. intros Hb. unfold py_or. destruct (truthy a) eqn:Ha; assumption. Qed.

(** X17: the timezone a selection resolves to is never empty or [None], so
    the forecast request for it always carries a [timezone] parameter,
    that very value. *)
Theorem resolved_timezone_is_sent `{Env} (rows : list row) (pick : nat)
    (sel : string) (lat lon : float) (tz : value)
    (hourly_vars daily_vars : list string) (ds : Z) :
  resolve_selection rows pick = Ok (sel, (lat, lon, tz)) →
  truthy tz = true
  ∧ lookup_item "timezone"
      (forecast_params
         {| fa_lat := lat; fa_lon := lon; fa_tz := tz;
            fa_hourly := hourly_vars; fa_daily := daily_vars; fa_days := ds |})
    = Some tz.
Proof.
  intros Hres.
  assert (Htz : truthy tz = true).
  { revert Hres. unfold resolve_selection, mbind, result_bind.
    destruct (st_radio _ _); [ | discriminate].
    destruct (index _ _) as [idx | ]; [ | discriminate].
    destruct (iloc (records_cells (map row_lat rows)) idx) as [lat_cell | ];
      [ | discriminate].
    destruct (iloc (records_cells (map row_lon rows)) idx) as [lon_cell | ];
      [ | discriminate].
    destruct (iloc (records_cells (map row_timezone rows)) idx) as [tz_cell | ];
      [ | discriminate].
    destruct (py_float _ lat_cell); [ | discriminate].
    destruct (py_float _ lon_cell); [ | discriminate].
    intros [= _ _ _ <-]. apply py_or_truthy. reflexivity. }
  split; [exact Htz | ].
  unfold forecast_params. simpl.
  destruct hourly_vars, daily_vars, tz; simpl; try reflexivity; discriminate.
Qed.

Lemma resolved_timezone_is_sent_witness :
  @resolve_selection (Demo.env Demo.honest) Demo.rows 0
  = Ok (Demo.listed_name, (Demo.lat_seoul, Demo.lon_seoul, VStr "Asia/Seoul"))
  ∧ truthy (VStr "Asia/Seoul") = true
  ∧ lookup_item "timezone"
      (forecast_params
         {| fa_lat := Demo.lat_seoul; fa_lon := Demo.lon_seoul;
            fa_tz := VStr "Asia/Seoul";
            fa_hourly := []; fa_daily := []; fa_days := 7 |})
    = Some (VStr "Asia/Seoul").
Proof.
  split; [vm_compute; reflexivity | ].
  apply (@resolved_timezone_is_sent (Demo.env Demo.honest) Demo.rows 0
           Demo.listed_name Demo.lat_seoul Demo.lon_seoul (VStr "Asia/Seoul")
           [] [] 7).
  vm_compute; reflexivity.
Defined.

(** ** What the hourly step draws *)

(** The loop over the selection draws figures for selected variables
    only, at most one each, also when a drawing raises and ends it. *)
Lemma for_each_plot_charts `{Env} (df : frame) (selection : list string)
    (w : world) :
  ∃ figs : list figure,
    trace (snd (for_each (plot_if_present df) selection w))
    = (trace w ++ map StPyplot figs)%list
    ∧ Forall (λ fig, fig_title fig ∈ selection
                     ∧ fig_xlabel fig = "Time"
                     ∧ fig_ylabel fig = fig_title fig
                     ∧ fig_grid fig = true) figs
    ∧ (length figs ≤ length selection)%nat.
Proof.
  revert w. induction selection as [ | var vars IH]; intros w.
  - exists []. simpl. rewrite app_nil_r. repeat split; constructor.
  - assert (Hnone : ∃ figs : list figure,
               trace w = (trace w ++ map StPyplot figs)%list
               ∧ Forall (λ fig, fig_title fig ∈ var :: vars
                                ∧ fig_xlabel fig = "Time"
                                ∧ fig_ylabel fig = fig_title fig
                                ∧ fig_grid fig = true) figs
               ∧ (length figs ≤ length (var :: vars))%nat).
    { exists []. simpl. rewrite app_nil_r.
      repeat split; [constructor | apply Nat.le_0_l]. }
    assert (Hskip : ∀ w0 : world,
               ∃ figs : list figure,
                 trace (snd (for_each (plot_if_present df) vars w0))
                 = (trace w0 ++ map StPyplot figs)%list
                 ∧ Forall (λ fig, fig_title fig ∈ var :: vars
                                  ∧ fig_xlabel fig = "Time"
                                  ∧ fig_ylabel fig = fig_title fig
                                  ∧ fig_grid fig = true) figs
                 ∧ (length figs ≤ length vars)%nat).
    { intros w0. destruct (IH w0) as (figs & Htr & Hall & Hlen).
      exists figs. split; [exact Htr | split; [ | exact Hlen]].
      eapply Forall_impl; [exact Hall | ].
      intros fig (Hin & Hrest).
      split; [apply list_elem_of_further, Hin | exact Hrest]. }
    simpl. rewrite bind_run. unfold plot_if_present at 1.
    destruct (Pandas.find_column var df) as [y | ].
    + rewrite bind_lift.
      destruct (Pandas.column "time" df) as [x | e]; [ | exact Hnone].
      destruct (draw_error var x y) as [e | ]; [exact Hnone | ].
      unfold emit at 1.
      destruct (Hskip (add_event (StPyplot (line_chart var x y)) w))
        as (figs & Htr & Hall & Hlen).
      exists (line_chart var x y :: figs). split; [ | split].
      * rewrite Htr. simpl. rewrite <- app_assoc. reflexivity.
      * constructor; [ | exact Hall].
        repeat split. apply list_elem_of_here.
      * simpl. apply le_n_S. exact Hlen.
    + unfold mret, M_ret.
      destruct (Hskip w) as (figs & Htr & Hall & Hlen).
      exists figs. split; [exact Htr | split; [exact Hall | ]].
      simpl. apply Nat.le_le_succ_r. exact Hlen.
Qed.

(** X18: whatever the document, the hourly step draws charts for selected
    variables only, at most one per entry of the selection, each labelled
    with its variable and with [Time] on the x axis. *)
Theorem charts_only_for_selection `{Env}
    (data : value) (hourly_options : list string) (w : world) :
  Forall (λ fig, fig_title fig ∈ hourly_options
                 ∧ fig_xlabel fig = "Time"
                 ∧ fig_ylabel fig = fig_title fig
                 ∧ fig_grid fig = true)
    (charts_of (new_events w (snd (render_hourly data hourly_options w))))
  ∧ (length (charts_of (new_events w (snd (render_hourly data hourly_options w))))
     ≤ length hourly_options)%nat.
Proof.
  assert (Hnone : charts_of (new_events w w) = []).
  { unfold new_events. rewrite drop_all. reflexivity. }
  assert (Hquiet : ∀ r : result unit,
             Forall (λ fig, fig_title fig ∈ hourly_options
                            ∧ fig_xlabel fig = "Time"
                            ∧ fig_ylabel fig = fig_title fig
                            ∧ fig_grid fig = true)
               (charts_of (new_events w (snd (r, w))))
             ∧ (length (charts_of (new_events w (snd (r, w))))
                ≤ length hourly_options)%nat).
  { intros r. cbn [snd]. rewrite Hnone. split; [constructor | apply Nat.le_0_l]. }
  unfold render_hourly. rewrite bind_lift.
  destruct (get data "hourly" (VDict [])) as [hourly | e]; [ | apply Hquiet].
  destruct (truthy hourly && nonempty hourly_options); [ | apply Hquiet].
  rewrite bind_lift.
  destruct (Pandas.DataFrame hourly) as [cols | e]; [ | apply Hquiet].
  rewrite bind_lift.
  destruct (Pandas.column "time" cols) as [t | e]; [ | apply Hquiet].
  rewrite bind_lift.
  destruct (Pandas.pd_to_datetime t) as [ts | e]; [ | apply Hquiet].
  rewrite bind_emit.
  destruct (for_each_plot_charts (Pandas.assign_time cols ts) hourly_options
              (add_event (StSubheader "시간별 데이터") w))
    as (figs & Htr & Hall & Hlen).
  erewrite new_events_app; [ | rewrite Htr; cbn [trace add_event];
                                 rewrite <- app_assoc; reflexivity].
  change (charts_of ([StSubheader "시간별 데이터"] ++ ?es))
    with (charts_of es).
  rewrite charts_of_pyplots. split; [exact Hall | exact Hlen].
Qed.
